(** * Task Manager API: the ordering and conflict-resolution layer

    A shallow embedding of [applications/task-manager/main.py].

    The PostgreSQL table [tasks] is a finite map from the primary key
    [id] to the remaining columns, together with the sequence behind
    [id SERIAL].  Every SQL statement the handlers issue is one
    primitive of a small state-and-exception monad; every handler is
    the composition of its statements in the order the source issues
    them.  [HTTPException]s are the exceptions of the monad.

    Modelling conventions:
    - a [datetime] is an instant, a [Z]: request timestamps carry a UTC
      offset, as the [TIMESTAMP WITH TIME ZONE] values read back from
      the table do, so any two of them compare;
    - a [DATE] is a day number, a [Z]; how the driver converts Python
      values to column types is not modelled;
    - [NOW()] is an argument of the handlers that write;
    - ids are unbounded integers;
    - the handlers run one at a time: the statements of one handler are
      not interleaved with those of another, except where the two
      statements of [update_task] are taken apart to follow two Updates
      that overlap;
    - the connection pool is open (the handlers run inside [lifespan]);
      logging is not modelled. *)

From stdpp Require Import base gmap strings list sorting fin_maps.

Open Scope Z_scope.

(** ** Pydantic models *)

Module TaskCreate.
Record t := mk {
  title : string;
  content : string;
  due_date : Z;
  request_timestamp : Z
}.
End TaskCreate.

Module TaskUpdate.
Record t := mk {
  title : option string;
  content : option string;
  due_date : option Z;
  done : option bool;
  request_timestamp : Z
}.
End TaskUpdate.

Module TaskDelete.
Record t := mk {
  request_timestamp : Z
}.
End TaskDelete.

Module TaskResponse.
Record t := mk {
  id : Z;
  title : string;
  content : string;
  due_date : Z;
  done : bool;
  created_at : Z;
  updated_at : Z
}.

#[global] Instance eq_dec : EqDecision t.
Proof. solve_decision. Defined.
End TaskResponse.

(** ** The [tasks] table *)

(** One row of [tasks], without its primary key. *)
Module Row.
Record t := mk {
  title : string;
  content : string;
  due_date : Z;
  done : bool;
  created_at : Z;
  updated_at : Z;
  last_request_timestamp : Z
}.

#[global] Instance eq_dec : EqDecision t.
Proof. solve_decision. Defined.
End Row.

Record Store := mkStore {
  tasks : gmap Z Row.t;
  tasks_id_seq : Z          (* the value the next [nextval] returns *)
}.

(** The table after [CREATE TABLE IF NOT EXISTS] on a fresh database. *)
Definition init_database : Store :=
  {| tasks := ∅; tasks_id_seq := 1 |}.

(** Every id in the table was handed out by the sequence. *)
Definition Store_wf (st : Store) : Prop :=
  map_Forall (λ id _, id < tasks_id_seq st) (tasks st).

#[global] Instance Store_wf_dec st : Decision (Store_wf st).
Proof. unfold Store_wf. apply _. Defined.

(** ** Exceptions and the handler monad *)

Inductive HTTPException :=
  | HTTP_400_BAD_REQUEST
  | HTTP_401_UNAUTHORIZED
  | HTTP_404_NOT_FOUND
  | HTTP_409_CONFLICT
  | HTTP_500_INTERNAL_SERVER_ERROR.

#[global] Instance HTTPException_eq_dec : EqDecision HTTPException.
Proof. solve_decision. Defined.

Inductive Result (A : Type) :=
  | Return (a : A)
  | Raise (e : HTTPException).
Arguments Return {A} a.
Arguments Raise {A} e.

(** A handler reads and writes the store and either returns or raises.
    There is no transaction around a handler: what a statement wrote
    before an exception stays written. *)
Definition Handler (A : Type) : Type := Store → Result A * Store.

Definition ret {A} (a : A) : Handler A := λ st, (Return a, st).
Definition raise {A} (e : HTTPException) : Handler A := λ st, (Raise e, st).
Definition bind {A B} (m : Handler A) (k : A → Handler B) : Handler B :=
  λ st, match m st with
        | (Return a, st') => k a st'
        | (Raise e, st') => (Raise e, st')
        end.

Notation "'let*' x ':=' m 'in' k" := (bind m (λ x, k))
  (at level 10, x pattern, m at level 100, k at level 200, only parsing).
Notation "m ';;' k" := (bind m (λ _, k))
  (at level 100, k at level 200, right associativity, only parsing).

(** ** Row projections *)

(** [RETURNING id, title, content, due_date, done, created_at,
    updated_at], then [TaskResponse(id=row['id'], ...)]: the watermark
    column is not part of the response. *)
Definition to_response (id : Z) (row : Row.t) : TaskResponse.t :=
  {| TaskResponse.id := id;
     TaskResponse.title := Row.title row;
     TaskResponse.content := Row.content row;
     TaskResponse.due_date := Row.due_date row;
     TaskResponse.done := Row.done row;
     TaskResponse.created_at := Row.created_at row;
     TaskResponse.updated_at := Row.updated_at row |}.

(** ** SQL statements *)

(** [SELECT id FROM tasks WHERE title = $1 AND last_request_timestamp >= $2] *)
Definition conflicts_with (title : string) (ts : Z) (kv : Z * Row.t) : Prop :=
  Row.title kv.2 = title ∧ ts ≤ Row.last_request_timestamp kv.2.

#[global] Instance conflicts_with_dec title ts kv :
  Decision (conflicts_with title ts kv).
Proof. unfold conflicts_with. apply _. Defined.

Definition select_conflicting (title : string) (ts : Z) : Handler (option Z) :=
  λ st, (Return (fst <$> head (map_to_list (filter (conflicts_with title ts) (tasks st)))), st).

(** [INSERT INTO tasks (title, content, due_date, last_request_timestamp)
    VALUES ($1, $2, $3, $4) RETURNING ...]: [id] comes from the sequence,
    [done] defaults to [FALSE], [created_at] and [updated_at] to [NOW()].
    A duplicate primary key is an asyncpg exception, which the handler's
    [except Exception] turns into a 500. *)
Definition inserted_row (now : Z) (task : TaskCreate.t) : Row.t :=
  {| Row.title := TaskCreate.title task;
     Row.content := TaskCreate.content task;
     Row.due_date := TaskCreate.due_date task;
     Row.done := false;
     Row.created_at := now;
     Row.updated_at := now;
     Row.last_request_timestamp := TaskCreate.request_timestamp task |}.

Definition insert_task (now : Z) (task : TaskCreate.t) : Handler (Z * Row.t) :=
  λ st,
    let id := tasks_id_seq st in
    let row := inserted_row now task in
    match tasks st !! id with
    | Some _ =>
        (Raise HTTP_500_INTERNAL_SERVER_ERROR,
         {| tasks := tasks st; tasks_id_seq := id + 1 |})
    | None =>
        (Return (id, row),
         {| tasks := <[id := row]> (tasks st); tasks_id_seq := id + 1 |})
    end.

(** [ORDER BY created_at DESC] *)
Definition created_at_desc (a b : Z * Row.t) : Prop :=
  Row.created_at b.2 ≤ Row.created_at a.2.

#[global] Instance created_at_desc_dec : RelDecision created_at_desc.
Proof. intros a b. unfold created_at_desc. apply _. Defined.

(** [SELECT id, title, ... FROM tasks ORDER BY created_at DESC] *)
Definition select_all : Handler (list (Z * Row.t)) :=
  λ st, (Return (merge_sort created_at_desc (map_to_list (tasks st))), st).

(** [SELECT ... FROM tasks WHERE id = $1] *)
Definition select_by_id (task_id : Z) : Handler (option (Z * Row.t)) :=
  λ st, (Return ((λ row, (task_id, row)) <$> tasks st !! task_id), st).

(** One entry of the [updates] list, with the entry of [values] its
    placeholder refers to. *)
Inductive Assignment :=
  | set_title (v : string)
  | set_content (v : string)
  | set_due_date (v : Z)
  | set_done (v : bool)
  | set_updated_at_now
  | set_last_request_timestamp (v : Z).

Definition assign (now : Z) (row : Row.t) (a : Assignment) : Row.t :=
  match a with
  | set_title v =>
      {| Row.title := v; Row.content := Row.content row;
         Row.due_date := Row.due_date row; Row.done := Row.done row;
         Row.created_at := Row.created_at row; Row.updated_at := Row.updated_at row;
         Row.last_request_timestamp := Row.last_request_timestamp row |}
  | set_content v =>
      {| Row.title := Row.title row; Row.content := v;
         Row.due_date := Row.due_date row; Row.done := Row.done row;
         Row.created_at := Row.created_at row; Row.updated_at := Row.updated_at row;
         Row.last_request_timestamp := Row.last_request_timestamp row |}
  | set_due_date v =>
      {| Row.title := Row.title row; Row.content := Row.content row;
         Row.due_date := v; Row.done := Row.done row;
         Row.created_at := Row.created_at row; Row.updated_at := Row.updated_at row;
         Row.last_request_timestamp := Row.last_request_timestamp row |}
  | set_done v =>
      {| Row.title := Row.title row; Row.content := Row.content row;
         Row.due_date := Row.due_date row; Row.done := v;
         Row.created_at := Row.created_at row; Row.updated_at := Row.updated_at row;
         Row.last_request_timestamp := Row.last_request_timestamp row |}
  | set_updated_at_now =>
      {| Row.title := Row.title row; Row.content := Row.content row;
         Row.due_date := Row.due_date row; Row.done := Row.done row;
         Row.created_at := Row.created_at row; Row.updated_at := now;
         Row.last_request_timestamp := Row.last_request_timestamp row |}
  | set_last_request_timestamp v =>
      {| Row.title := Row.title row; Row.content := Row.content row;
         Row.due_date := Row.due_date row; Row.done := Row.done row;
         Row.created_at := Row.created_at row; Row.updated_at := Row.updated_at row;
         Row.last_request_timestamp := v |}
  end.

(** [UPDATE tasks SET {', '.join(updates)} WHERE id = $n RETURNING ...]:
    each column is assigned at most once, so the order of the
    assignments does not matter; [fetchrow] gives [None] when no row
    has that id. *)
Definition update_set (now : Z) (updates : list Assignment) (task_id : Z)
    : Handler (option (Z * Row.t)) :=
  λ st,
    match tasks st !! task_id with
    | None => (Return None, st)
    | Some row =>
        let row' := foldl (assign now) row updates in
        (Return (Some (task_id, row')),
         {| tasks := <[task_id := row']> (tasks st);
            tasks_id_seq := tasks_id_seq st |})
    end.

(** [DELETE FROM tasks WHERE id = $1] *)
Definition delete_by_id (task_id : Z) : Handler unit :=
  λ st, (Return tt,
         {| tasks := delete task_id (tasks st);
            tasks_id_seq := tasks_id_seq st |}).

(** [TaskResponse(id=row['id'], ...)] on the result of [fetchrow]:
    subscripting [None] is a [TypeError], which [except Exception]
    turns into a 500. *)
Definition response_of (row : option (Z * Row.t)) : Handler TaskResponse.t :=
  match row with
  | Some (id, r) => ret (to_response id r)
  | None => raise HTTP_500_INTERNAL_SERVER_ERROR
  end.

(** ** Authentication *)

Record User := mkUser {
  user_id : string;
  scopes : list string
}.

(** [if not token or len(token) < 10: raise HTTPException(401)] *)
Definition verify_token (token : string) : Handler User :=
  if bool_decide (token = EmptyString ∨ (String.length token < 10)%nat)
  then raise HTTP_401_UNAUTHORIZED
  else ret {| user_id := "demo_user"; scopes := ["read"; "write"] |}.

(** ** Task endpoints *)

Definition create_task (now : Z) (task : TaskCreate.t) : Handler TaskResponse.t :=
  let* existing :=
    select_conflicting (TaskCreate.title task) (TaskCreate.request_timestamp task) in
  (if existing is Some _ then raise HTTP_409_CONFLICT else ret ());;
  let* row := insert_task now task in
  ret (to_response row.1 row.2).

Definition list_tasks : Handler (list TaskResponse.t) :=
  let* rows := select_all in
  ret ((λ row, to_response row.1 row.2) <$> rows).

Definition get_task (task_id : Z) : Handler TaskResponse.t :=
  let* row := select_by_id task_id in
  match row with
  | None => raise HTTP_404_NOT_FOUND
  | Some (id, r) => ret (to_response id r)
  end.

(** The [updates] list as the source builds it: one entry per supplied
    field, then the two timestamp entries, always. *)
Definition build_updates (task_update : TaskUpdate.t) : list Assignment :=
  let updates := [] in
  let updates :=
    if TaskUpdate.title task_update is Some v
    then updates ++ [set_title v] else updates in
  let updates :=
    if TaskUpdate.content task_update is Some v
    then updates ++ [set_content v] else updates in
  let updates :=
    if TaskUpdate.due_date task_update is Some v
    then updates ++ [set_due_date v] else updates in
  let updates :=
    if TaskUpdate.done task_update is Some v
    then updates ++ [set_done v] else updates in
  updates ++ [set_updated_at_now;
              set_last_request_timestamp (TaskUpdate.request_timestamp task_update)].

Definition update_task (now : Z) (task_id : Z) (task_update : TaskUpdate.t)
    : Handler TaskResponse.t :=
  let* current := select_by_id task_id in
  match current with
  | None => raise HTTP_404_NOT_FOUND
  | Some (_, cur) =>
      if bool_decide (TaskUpdate.request_timestamp task_update
                      ≤ Row.last_request_timestamp cur)
      then raise HTTP_409_CONFLICT
      else
        let updates := build_updates task_update in
        if updates is [] then raise HTTP_400_BAD_REQUEST
        else
          let* row := update_set now updates task_id in
          response_of row
  end.

(** The body of the 200 response of [delete_task]. *)
Definition deleted_message : string := "Task deleted successfully".

Definition delete_task (task_id : Z) (task_delete : TaskDelete.t) : Handler string :=
  let* current := select_by_id task_id in
  match current with
  | None => raise HTTP_404_NOT_FOUND
  | Some (_, cur) =>
      if bool_decide (TaskDelete.request_timestamp task_delete
                      ≤ Row.last_request_timestamp cur)
      then raise HTTP_409_CONFLICT
      else
        delete_by_id task_id;;
        ret deleted_message
  end.

(** ** The application: authentication, then routing *)

Inductive Request :=
  | CreateTask (now : Z) (task : TaskCreate.t)
  | ListTasks
  | GetTask (task_id : Z)
  | UpdateTask (now : Z) (task_id : Z) (task_update : TaskUpdate.t)
  | DeleteTask (task_id : Z) (task_delete : TaskDelete.t).

Inductive Response :=
  | Task (r : TaskResponse.t)
  | TaskList (l : list TaskResponse.t)
  | Message (s : string).

Definition endpoint (req : Request) : Handler Response :=
  match req with
  | CreateTask now task => let* r := create_task now task in ret (Task r)
  | ListTasks => let* l := list_tasks in ret (TaskList l)
  | GetTask task_id => let* r := get_task task_id in ret (Task r)
  | UpdateTask now task_id task_update =>
      let* r := update_task now task_id task_update in ret (Task r)
  | DeleteTask task_id task_delete =>
      let* s := delete_task task_id task_delete in ret (Message s)
  end.

(** [user: dict = Depends(verify_token)]: the dependency is resolved
    before the endpoint's body runs. *)
Definition app (call : string * Request) : Handler Response :=
  verify_token call.1;; endpoint call.2.

(** The store after a sequence of calls, served one after the other. *)
Fixpoint run (calls : list (string * Request)) (st : Store) : Store :=
  match calls with
  | [] => st
  | call :: calls => run calls (app call st).2
  end.

(** The request timestamp a call had accepted for task [id], if any. *)
Definition accepted (id : Z) (call : string * Request) (res : Result Response)
    : option Z :=
  match call.2, res with
  | CreateTask _ task, Return (Task r) =>
      if decide (TaskResponse.id r = id)
      then Some (TaskCreate.request_timestamp task) else None
  | UpdateTask _ task_id task_update, Return _ =>
      if decide (task_id = id)
      then Some (TaskUpdate.request_timestamp task_update) else None
  | DeleteTask task_id task_delete, Return _ =>
      if decide (task_id = id)
      then Some (TaskDelete.request_timestamp task_delete) else None
  | _, _ => None
  end.

(** The request timestamps accepted for task [id] over a sequence of
    calls, in the order of the calls. *)
Fixpoint accepted_timestamps (id : Z) (calls : list (string * Request))
    (st : Store) : list Z :=
  match calls with
  | [] => []
  | call :: calls =>
      let (res, st') := app call st in
      match accepted id call res with
      | Some ts => ts :: accepted_timestamps id calls st'
      | None => accepted_timestamps id calls st'
      end
  end.

Definition watermark (id : Z) (st : Store) : option Z :=
  Row.last_request_timestamp <$> tasks st !! id.

(** The stored watermark of task [id] before the first call and after
    every call, wherever the task exists. *)
Fixpoint watermarks (id : Z) (calls : list (string * Request))
    (st : Store) : list Z :=
  option_list (watermark id st) ++
  match calls with
  | [] => []
  | call :: calls => watermarks id calls (app call st).2
  end.

(** ** What the claims speak about *)

(** Some stored task has the title of [task] and a watermark at or
    after its request timestamp. *)
Definition duplicate (task : TaskCreate.t) (st : Store) : Prop :=
  ∃ id row, tasks st !! id = Some row
    ∧ Row.title row = TaskCreate.title task
    ∧ TaskCreate.request_timestamp task ≤ Row.last_request_timestamp row.

(** An update that supplies none of the optional fields. *)
Definition no_fields (task_update : TaskUpdate.t) : Prop :=
  TaskUpdate.title task_update = None
  ∧ TaskUpdate.content task_update = None
  ∧ TaskUpdate.due_date task_update = None
  ∧ TaskUpdate.done task_update = None.

(** The row an accepted update leaves behind. *)
Definition updated_row (now : Z) (task_update : TaskUpdate.t) (row : Row.t)
    : Row.t :=
  {| Row.title := default (Row.title row) (TaskUpdate.title task_update);
     Row.content := default (Row.content row) (TaskUpdate.content task_update);
     Row.due_date := default (Row.due_date row) (TaskUpdate.due_date task_update);
     Row.done := default (Row.done row) (TaskUpdate.done task_update);
     Row.created_at := Row.created_at row;
     Row.updated_at := now;
     Row.last_request_timestamp := TaskUpdate.request_timestamp task_update |}.

(** What one call does to the row of task [id]. *)
Definition step_of (id : Z) (st : Store) (acc : option Z) (st' : Store) : Prop :=
  Store_wf st' ∧ tasks_id_seq st ≤ tasks_id_seq st' ∧
  match acc with
  | None => tasks st' !! id = tasks st !! id
  | Some ts =>
      match tasks st !! id with
      | Some row =>
          Row.last_request_timestamp row < ts
          ∧ (watermark id st' = Some ts ∨ tasks st' !! id = None)
      | None => tasks_id_seq st ≤ id ∧ watermark id st' = Some ts
      end
  end.

(** The order of the responses of List. *)
Definition newest_first (a b : TaskResponse.t) : Prop :=
  TaskResponse.created_at b ≤ TaskResponse.created_at a.

Definition demo_user : User :=
  {| user_id := "demo_user"; scopes := ["read"; "write"] |}.

(** Stores used to evaluate the handlers on concrete requests. *)
Definition store_one : Store :=
  (create_task 1000 (TaskCreate.mk "X" "first" 20000 10) init_database).2.

Definition row_one : Row.t := inserted_row 1000 (TaskCreate.mk "X" "first" 20000 10).

Definition demo_token : string := "0123456789".

(** Create task 1, update it, replay an older update, update it again,
    delete it, and try to update it once more. *)
Definition demo_calls : list (string * Request) :=
  [ (demo_token, CreateTask 1000 (TaskCreate.mk "X" "first" 20000 10));
    (demo_token, UpdateTask 1001 1 (TaskUpdate.mk None None None (Some true) 12));
    (demo_token, UpdateTask 1002 1 (TaskUpdate.mk (Some "Z") None None None 11));
    (demo_token, UpdateTask 1003 1 (TaskUpdate.mk None (Some "later") None None 15));
    (demo_token, DeleteTask 1 (TaskDelete.mk 20));
    (demo_token, UpdateTask 1004 1 (TaskUpdate.mk None None None (Some false) 30)) ].

(** ** Requests on one task *)

(** The task a Get, an Update or a Delete names. *)
Definition target (req : Request) : option Z :=
  match req with
  | GetTask task_id => Some task_id
  | UpdateTask _ task_id _ => Some task_id
  | DeleteTask task_id _ => Some task_id
  | CreateTask _ _ | ListTasks => None
  end.

(** What such a request returns and what it leaves of the row it
    names, given that row. *)
Definition row_step (req : Request) (id : Z) (current : option Row.t)
    : Result Response * option Row.t :=
  match req, current with
  | GetTask _, Some row => (Return (Task (to_response id row)), Some row)
  | UpdateTask now _ task_update, Some row =>
      if bool_decide (TaskUpdate.request_timestamp task_update
                      ≤ Row.last_request_timestamp row)
      then (Raise HTTP_409_CONFLICT, Some row)
      else (Return (Task (to_response id (updated_row now task_update row))),
            Some (updated_row now task_update row))
  | DeleteTask _ task_delete, Some row =>
      if bool_decide (TaskDelete.request_timestamp task_delete
                      ≤ Row.last_request_timestamp row)
      then (Raise HTTP_409_CONFLICT, Some row)
      else (Return (Message deleted_message), None)
  | _, _ => (Raise HTTP_404_NOT_FOUND, current)
  end.

(** ** The UPDATE statement as [update_task] writes it *)

Inductive Column :=
  | col_title
  | col_content
  | col_due_date
  | col_done
  | col_updated_at
  | col_last_request_timestamp.

(** The right-hand side of one entry of [updates]: a placeholder [$n]
    or [NOW()]. *)
Inductive Expr :=
  | Param (n : nat)
  | NOW.

(** One entry of [values]. *)
Inductive Value :=
  | Str (v : string)
  | Date (v : Z)
  | Bool (v : bool)
  | Timestamp (v : Z)
  | Int (v : Z).

Record UpdateQuery := mkUpdateQuery {
  q_updates : list (Column * Expr);   (* [SET {', '.join(updates)}] *)
  q_where : nat;                      (* [WHERE id = ${param_count + 1}] *)
  q_values : list Value               (* [*values] *)
}.

(** The lists [updates] and [values] and the counter [param_count] as
    [update_task] builds them. *)
Definition build_query (task_id : Z) (task_update : TaskUpdate.t) : UpdateQuery :=
  let updates : list (Column * Expr) := [] in
  let values : list Value := [] in
  let param_count := 1%nat in
  let '(updates, values, param_count) :=
    if TaskUpdate.title task_update is Some v
    then (updates ++ [(col_title, Param param_count)],
          values ++ [Str v], (param_count + 1)%nat)
    else (updates, values, param_count) in
  let '(updates, values, param_count) :=
    if TaskUpdate.content task_update is Some v
    then (updates ++ [(col_content, Param param_count)],
          values ++ [Str v], (param_count + 1)%nat)
    else (updates, values, param_count) in
  let '(updates, values, param_count) :=
    if TaskUpdate.due_date task_update is Some v
    then (updates ++ [(col_due_date, Param param_count)],
          values ++ [Date v], (param_count + 1)%nat)
    else (updates, values, param_count) in
  let '(updates, values, param_count) :=
    if TaskUpdate.done task_update is Some v
    then (updates ++ [(col_done, Param param_count)],
          values ++ [Bool v], (param_count + 1)%nat)
    else (updates, values, param_count) in
  let updates :=
    updates ++ [(col_updated_at, NOW);
                (col_last_request_timestamp, Param param_count)] in
  let values :=
    values ++ [Timestamp (TaskUpdate.request_timestamp task_update);
               Int task_id] in
  {| q_updates := updates;
     q_where := (param_count + 1)%nat;
     q_values := values |}.

(** The argument the placeholder [$n] stands for: placeholders count
    from 1. *)
Definition param (values : list Value) (n : nat) : option Value :=
  match n with
  | O => None
  | S k => values !! k
  end.

(** The assignment one entry of [updates] makes once its placeholder
    is bound, when the argument has the type of the column. *)
Definition bind_assignment (values : list Value) (entry : Column * Expr)
    : option Assignment :=
  match entry with
  | (col_title, Param n) =>
      if param values n is Some (Str v) then Some (set_title v) else None
  | (col_content, Param n) =>
      if param values n is Some (Str v) then Some (set_content v) else None
  | (col_due_date, Param n) =>
      if param values n is Some (Date v) then Some (set_due_date v) else None
  | (col_done, Param n) =>
      if param values n is Some (Bool v) then Some (set_done v) else None
  | (col_updated_at, NOW) => Some set_updated_at_now
  | (col_last_request_timestamp, Param n) =>
      if param values n is Some (Timestamp v)
      then Some (set_last_request_timestamp v) else None
  | _ => None
  end.

(** The placeholders of the statement in the order they are written:
    those of the [SET] list, then the one of [WHERE]. *)
Definition placeholders (q : UpdateQuery) : list nat :=
  omap (λ entry : Column * Expr,
          match entry.2 with Param n => Some n | NOW => None end)
       (q_updates q)
  ++ [q_where q].

(** ** The process: environment, pool and database *)

Module Lifespan.

(** The tasks table right after [CREATE TABLE]. *)
Definition fresh : Store := init_database.

(** An asyncpg pool: open until [close()]. *)
Record Pool := mkPool {
  closed : bool
}.

Record Process := mkProcess {
  DATABASE_URL : option string;   (* [os.getenv('DATABASE_URL')] *)
  db_pool : option Pool;          (* the global [db_pool] *)
  database : option Store         (* the [tasks] table, once it is created *)
}.

Inductive Startup :=
  | Started
  | ValueError.

Inductive Health :=
  | healthy (timestamp : Z)
  | HTTP_503_SERVICE_UNAVAILABLE.

(** [init_database]: without [DATABASE_URL] a [ValueError]; otherwise a
    new pool and [CREATE TABLE IF NOT EXISTS], which keeps a table that
    is there.  The database server is taken to be reachable. *)
Definition init_database (p : Process) : Startup * Process :=
  match DATABASE_URL p with
  | None => (ValueError, p)
  | Some database_url =>
      if bool_decide (database_url = EmptyString) then (ValueError, p)
      else (Started,
            {| DATABASE_URL := DATABASE_URL p;
               db_pool := Some {| closed := false |};
               database := Some (default fresh (database p)) |})
  end.

(** [close_database]: [if db_pool: await db_pool.close()]; the global
    keeps the closed pool. *)
Definition close_database (p : Process) : Process :=
  match db_pool p with
  | Some _ =>
      {| DATABASE_URL := DATABASE_URL p;
         db_pool := Some {| closed := true |};
         database := database p |}
  | None => p
  end.

Definition get_db_pool (p : Process) : Result Pool :=
  match db_pool p with
  | None => Raise HTTP_500_INTERNAL_SERVER_ERROR
  | Some pool => Return pool
  end.

(** [health_check]: [get_db_pool], [acquire] and [SELECT 1] inside one
    [try]; [except Exception] turns whatever is raised, the 500 of
    [get_db_pool] included, into a 503.  [acquire] raises on a closed
    pool. *)
Definition health_check (now : Z) (p : Process) : Health :=
  match get_db_pool p with
  | Raise _ => HTTP_503_SERVICE_UNAVAILABLE
  | Return pool =>
      if closed pool then HTTP_503_SERVICE_UNAVAILABLE else healthy now
  end.

(** One call as a task endpoint serves it: [verify_token] as a
    dependency first, then [get_db_pool] outside the [try], then
    [acquire] and the statements of the endpoint inside it, where
    [except Exception] turns a closed pool or a missing table into a
    500. *)
Definition serve (call : string * Request) (p : Process)
    : Result Response * Process :=
  match (verify_token call.1 fresh).1 with
  | Raise e => (Raise e, p)
  | Return _ =>
      match get_db_pool p with
      | Raise e => (Raise e, p)
      | Return pool =>
          if closed pool then (Raise HTTP_500_INTERNAL_SERVER_ERROR, p)
          else
            match database p with
            | None => (Raise HTTP_500_INTERNAL_SERVER_ERROR, p)
            | Some st =>
                let (res, st') := endpoint call.2 st in
                (res, {| DATABASE_URL := DATABASE_URL p;
                         db_pool := db_pool p;
                         database := Some st' |})
            end
      end
  end.

Fixpoint serve_all (calls : list (string * Request)) (p : Process) : Process :=
  match calls with
  | [] => p
  | call :: calls => serve_all calls (serve call p).2
  end.

(** [lifespan]: [init_database], the calls of this run of the
    application, [close_database]. *)
Definition lifespan (calls : list (string * Request)) (p : Process) : Process :=
  match init_database p with
  | (ValueError, p') => p'
  | (Started, p') => close_database (serve_all calls p')
  end.

End Lifespan.

(** ** Further concrete stores and processes *)

(** [store_one] and a second task, "Y", created at 1001 with request
    timestamp 20. *)
Definition store_pair : Store :=
  (create_task 1001 (TaskCreate.mk "Y" "second" 20001 20) store_one).2.

Definition process_one : Lifespan.Process :=
  {| Lifespan.DATABASE_URL := Some "postgresql://db/tasks";
     Lifespan.db_pool := None;
     Lifespan.database := Some store_one |}.

(** ** The two statements of [update_task] *)

(** [update_task] awaits its SELECT and later its UPDATE, on a
    connection of its own and outside any transaction; what another
    handler writes in between is what the UPDATE finds. *)

(** [update_task] up to the UPDATE: the SELECT, the 404 and the 409
    check, and the assembly of [updates]. *)
Definition update_task_select (task_id : Z) (task_update : TaskUpdate.t)
    : Handler (list Assignment) :=
  let* current := select_by_id task_id in
  match current with
  | None => raise HTTP_404_NOT_FOUND
  | Some (_, cur) =>
      if bool_decide (TaskUpdate.request_timestamp task_update
                      ≤ Row.last_request_timestamp cur)
      then raise HTTP_409_CONFLICT
      else
        let updates := build_updates task_update in
        if updates is [] then raise HTTP_400_BAD_REQUEST
        else ret updates
  end.

(** [update_task] from the UPDATE on: the statement and the response. *)
Definition update_task_write (now : Z) (task_id : Z) (updates : list Assignment)
    : Handler TaskResponse.t :=
  let* row := update_set now updates task_id in
  response_of row.

(** ** Serving order and the clock *)

(** The request as it is served when the server's clock reads [now]:
    [NOW()] is read when the statement runs, not when the request was
    made. *)
Definition at_time (now : Z) (req : Request) : Request :=
  match req with
  | CreateTask _ task => CreateTask now task
  | UpdateTask _ task_id task_update => UpdateTask now task_id task_update
  | ListTasks | GetTask _ | DeleteTask _ _ => req
  end.

Definition is_update (req : Request) : bool :=
  match req with
  | UpdateTask _ _ _ => true
  | _ => false
  end.

(** A row, a store and a response without their [updated_at]. *)
Definition forget_updated_at (row : Row.t) : Row.t :=
  {| Row.title := Row.title row;
     Row.content := Row.content row;
     Row.due_date := Row.due_date row;
     Row.done := Row.done row;
     Row.created_at := Row.created_at row;
     Row.updated_at := 0;
     Row.last_request_timestamp := Row.last_request_timestamp row |}.

Definition forget_store (st : Store) : Store :=
  {| tasks := forget_updated_at <$> tasks st;
     tasks_id_seq := tasks_id_seq st |}.

Definition forget_task (r : TaskResponse.t) : TaskResponse.t :=
  {| TaskResponse.id := TaskResponse.id r;
     TaskResponse.title := TaskResponse.title r;
     TaskResponse.content := TaskResponse.content r;
     TaskResponse.due_date := TaskResponse.due_date r;
     TaskResponse.done := TaskResponse.done r;
     TaskResponse.created_at := TaskResponse.created_at r;
     TaskResponse.updated_at := 0 |}.

Definition forget_response (res : Result Response) : Result Response :=
  match res with
  | Return (Task r) => Return (Task (forget_task r))
  | Return (TaskList l) => Return (TaskList (forget_task <$> l))
  | Return (Message m) => Return (Message m)
  | Raise e => Raise e
  end.

(** * Properties *)

(** ** The SQL statements *)

Section statements.
Implicit Types (st : Store) (id : Z) (row : Row.t).

Lemma head_filter_None {A} (P : Z * A → Prop) `{!∀ x, Decision (P x)}
    (m : gmap Z A) :
  head (map_to_list (filter P m)) = None
  ↔ ∀ k v, m !! k = Some v → ¬ P (k, v).
Proof. by rewrite head_None, map_to_list_empty_iff, map_empty_filter. Qed.

Lemma head_filter_Some {A} (P : Z * A → Prop) `{!∀ x, Decision (P x)}
    (m : gmap Z A) :
  is_Some (head (map_to_list (filter P m)))
  ↔ ∃ k v, m !! k = Some v ∧ P (k, v).
Proof.
  split.
  - intros [[k v] Hh].
    apply head_Some_elem_of, elem_of_map_to_list in Hh.
    apply map_lookup_filter_Some in Hh as [Hkv HP]. eauto.
  - intros (k & v & Hkv & HP). destruct (head _) eqn:Hh; [done|].
    rewrite head_filter_None in Hh. by destruct (Hh k v).
Qed.

Lemma select_conflicting_duplicate task st :
  (∃ id, select_conflicting (TaskCreate.title task)
           (TaskCreate.request_timestamp task) st = (Return (Some id), st))
  ↔ duplicate task st.
Proof.
  unfold select_conflicting, duplicate.
  pose proof (head_filter_Some
    (conflicts_with (TaskCreate.title task) (TaskCreate.request_timestamp task))
    (tasks st)) as Hh.
  unfold conflicts_with in Hh at 2; simpl in Hh. rewrite <- Hh. split.
  - intros [id [= Hid]]. by destruct (head _).
  - intros [[k v] ->]. by exists k.
Qed.

Lemma select_conflicting_no_duplicate task st :
  select_conflicting (TaskCreate.title task)
    (TaskCreate.request_timestamp task) st = (Return None, st)
  ↔ ¬ duplicate task st.
Proof.
  rewrite <- select_conflicting_duplicate. unfold select_conflicting.
  destruct (head _) as [[k v]|]; simpl; split.
  - intros [=].
  - intros []. by exists k.
  - intros _ [id [=]].
  - done.
Qed.

#[global] Instance duplicate_dec task st : Decision (duplicate task st).
Proof.
  destruct (head (map_to_list (filter
    (conflicts_with (TaskCreate.title task) (TaskCreate.request_timestamp task))
    (tasks st)))) as [[k v]|] eqn:Hh.
  - left. apply select_conflicting_duplicate. exists k.
    unfold select_conflicting. by rewrite Hh.
  - right. apply select_conflicting_no_duplicate.
    unfold select_conflicting. by rewrite Hh.
Defined.

End statements.

(** ** The handlers, one equation per outcome *)

Section handlers.
Implicit Types (st : Store) (id now : Z) (row : Row.t).

Lemma Store_wf_lookup st id row :
  Store_wf st → tasks st !! id = Some row → id < tasks_id_seq st.
Proof. intros Hwf Hrow. by apply (Hwf id row). Qed.

Lemma Store_wf_fresh st id :
  Store_wf st → tasks_id_seq st ≤ id → tasks st !! id = None.
Proof.
  intros Hwf Hid. destruct (tasks st !! id) as [row|] eqn:Hrow; [|done].
  apply (Store_wf_lookup _ _ _ Hwf) in Hrow. lia.
Qed.

Lemma init_database_wf : Store_wf init_database.
Proof. apply map_Forall_empty. Qed.

Lemma insert_task_wf now task st :
  Store_wf st →
  insert_task now task st
  = (Return (tasks_id_seq st, inserted_row now task),
     {| tasks := <[tasks_id_seq st := inserted_row now task]> (tasks st);
        tasks_id_seq := tasks_id_seq st + 1 |}).
Proof.
  intros Hwf. unfold insert_task.
  by rewrite (Store_wf_fresh st (tasks_id_seq st) Hwf).
Qed.

Lemma create_task_duplicate now task st :
  duplicate task st → create_task now task st = (Raise HTTP_409_CONFLICT, st).
Proof.
  intros [k Hk]%select_conflicting_duplicate.
  unfold create_task, bind. by rewrite Hk.
Qed.

Lemma create_task_no_duplicate now task st :
  ¬ duplicate task st →
  create_task now task st
  = match insert_task now task st with
    | (Return r, st') => (Return (to_response r.1 r.2), st')
    | (Raise e, st') => (Raise e, st')
    end.
Proof.
  intros Hk%select_conflicting_no_duplicate.
  unfold create_task, bind. rewrite Hk. simpl.
  by destruct (insert_task now task st) as [[r|e] st'].
Qed.

Lemma create_task_fresh now task st :
  Store_wf st → ¬ duplicate task st →
  create_task now task st
  = (Return (to_response (tasks_id_seq st) (inserted_row now task)),
     {| tasks := <[tasks_id_seq st := inserted_row now task]> (tasks st);
        tasks_id_seq := tasks_id_seq st + 1 |}).
Proof.
  intros Hwf Hnd. rewrite create_task_no_duplicate by done.
  by rewrite insert_task_wf.
Qed.

Lemma get_task_eq id st :
  get_task id st
  = match tasks st !! id with
    | Some row => (Return (to_response id row), st)
    | None => (Raise HTTP_404_NOT_FOUND, st)
    end.
Proof. unfold get_task, bind, select_by_id. by destruct (tasks st !! id). Qed.

Lemma list_tasks_eq st :
  list_tasks st
  = (Return ((λ r, to_response r.1 r.2)
               <$> merge_sort created_at_desc (map_to_list (tasks st))), st).
Proof. done. Qed.

Lemma build_updates_not_nil task_update : build_updates task_update ≠ [].
Proof.
  unfold build_updates. intros Hnil. by apply app_eq_nil in Hnil as [_ [=]].
Qed.

Lemma foldl_assign_build_updates now task_update row :
  foldl (assign now) row (build_updates task_update)
  = updated_row now task_update row.
Proof. by destruct task_update as [[?|] [?|] [?|] [?|] ?], row. Qed.

Lemma update_task_not_found now id task_update st :
  tasks st !! id = None →
  update_task now id task_update st = (Raise HTTP_404_NOT_FOUND, st).
Proof. intros Hid. unfold update_task, bind, select_by_id. by rewrite Hid. Qed.

Lemma update_task_stale now id task_update st row :
  tasks st !! id = Some row →
  TaskUpdate.request_timestamp task_update ≤ Row.last_request_timestamp row →
  update_task now id task_update st = (Raise HTTP_409_CONFLICT, st).
Proof.
  intros Hid Hts. unfold update_task, bind, select_by_id. rewrite Hid. simpl.
  by rewrite bool_decide_eq_true_2.
Qed.

Lemma update_task_fresh now id task_update st row :
  tasks st !! id = Some row →
  Row.last_request_timestamp row < TaskUpdate.request_timestamp task_update →
  update_task now id task_update st
  = (Return (to_response id (updated_row now task_update row)),
     {| tasks := <[id := updated_row now task_update row]> (tasks st);
        tasks_id_seq := tasks_id_seq st |}).
Proof.
  intros Hid Hts. unfold update_task, bind, select_by_id. rewrite Hid. simpl.
  rewrite bool_decide_eq_false_2 by lia.
  destruct (build_updates task_update) as [|a updates] eqn:Hupd.
  { by apply build_updates_not_nil in Hupd. }
  unfold update_set. rewrite Hid, <- Hupd, foldl_assign_build_updates. done.
Qed.

Lemma delete_task_not_found id task_delete st :
  tasks st !! id = None →
  delete_task id task_delete st = (Raise HTTP_404_NOT_FOUND, st).
Proof. intros Hid. unfold delete_task, bind, select_by_id. by rewrite Hid. Qed.

Lemma delete_task_stale id task_delete st row :
  tasks st !! id = Some row →
  TaskDelete.request_timestamp task_delete ≤ Row.last_request_timestamp row →
  delete_task id task_delete st = (Raise HTTP_409_CONFLICT, st).
Proof.
  intros Hid Hts. unfold delete_task, bind, select_by_id. rewrite Hid. simpl.
  by rewrite bool_decide_eq_true_2.
Qed.

Lemma delete_task_fresh id task_delete st row :
  tasks st !! id = Some row →
  Row.last_request_timestamp row < TaskDelete.request_timestamp task_delete →
  delete_task id task_delete st
  = (Return deleted_message,
     {| tasks := delete id (tasks st); tasks_id_seq := tasks_id_seq st |}).
Proof.
  intros Hid Hts. unfold delete_task, bind, select_by_id. rewrite Hid. simpl.
  by rewrite bool_decide_eq_false_2 by lia.
Qed.

Lemma verify_token_store token st : (verify_token token st).2 = st.
Proof. unfold verify_token. by case_bool_decide. Qed.

End handlers.

(** ** One call: the sequence invariant and the life of one identity *)

Section step.
Implicit Types (st : Store) (id now : Z) (row : Row.t).

Lemma step_of_idle id st acc : Store_wf st → acc = None → step_of id st acc st.
Proof. intros Hwf ->. by repeat split. Qed.

Lemma Store_wf_insert st id row seq :
  Store_wf st → id < seq → tasks_id_seq st ≤ seq →
  Store_wf {| tasks := <[id := row]> (tasks st); tasks_id_seq := seq |}.
Proof.
  intros Hwf Hid Hseq. apply map_Forall_insert_2; [done|].
  intros k r Hk. apply (Hwf k r) in Hk. simpl. lia.
Qed.

Lemma Store_wf_delete st id :
  Store_wf st →
  Store_wf {| tasks := delete id (tasks st); tasks_id_seq := tasks_id_seq st |}.
Proof. intros Hwf. by apply map_Forall_delete. Qed.

Lemma endpoint_step id token req st :
  Store_wf st →
  step_of id st (accepted id (token, req) (endpoint req st).1) (endpoint req st).2.
Proof.
  intros Hwf. destruct req as [now task| |task_id|now task_id upd|task_id del];
    unfold endpoint, bind, accepted; simpl.
  - destruct (decide (duplicate task st)) as [Hd|Hd].
    + rewrite create_task_duplicate by done. by apply step_of_idle.
    + rewrite create_task_fresh by done. unfold step_of; simpl.
      split; [|split; [lia|]].
      { apply Store_wf_insert; [done|lia|lia]. }
      case_decide as Hid; subst.
      * rewrite (Store_wf_fresh st (tasks_id_seq st)) by (done || lia).
        split; [lia|]. unfold watermark. simpl. by rewrite lookup_insert_eq.
      * simpl. by rewrite lookup_insert_ne.
  - by apply step_of_idle.
  - rewrite get_task_eq. destruct (tasks st !! task_id); by apply step_of_idle.
  - destruct (tasks st !! task_id) as [row|] eqn:Hrow.
    2:{ rewrite update_task_not_found by done. by apply step_of_idle. }
    destruct (decide (TaskUpdate.request_timestamp upd
                      ≤ Row.last_request_timestamp row)) as [Hts|Hts].
    { erewrite update_task_stale by done. by apply step_of_idle. }
    erewrite update_task_fresh by (done || lia). unfold step_of; simpl.
    split; [|split; [lia|]].
    { apply Store_wf_insert; [done| |lia]. by eapply Store_wf_lookup. }
    case_decide as Hid; subst.
    * rewrite Hrow. split; [lia|]. left. unfold watermark. simpl.
      by rewrite lookup_insert_eq.
    * by rewrite lookup_insert_ne.
  - destruct (tasks st !! task_id) as [row|] eqn:Hrow.
    2:{ rewrite delete_task_not_found by done. by apply step_of_idle. }
    destruct (decide (TaskDelete.request_timestamp del
                      ≤ Row.last_request_timestamp row)) as [Hts|Hts].
    { erewrite delete_task_stale by done. by apply step_of_idle. }
    erewrite delete_task_fresh by (done || lia). unfold step_of; simpl.
    split; [|split; [lia|]].
    { by apply Store_wf_delete. }
    case_decide as Hid; subst.
    * rewrite Hrow. split; [lia|]. right. apply lookup_delete_eq.
    * by rewrite lookup_delete_ne.
Qed.

Lemma app_eq call st :
  app call st
  = if bool_decide (call.1 = EmptyString ∨ (String.length call.1 < 10)%nat)
    then (Raise HTTP_401_UNAUTHORIZED, st)
    else endpoint call.2 st.
Proof. unfold app, bind, verify_token. by case_bool_decide. Qed.

Lemma app_step id call st :
  Store_wf st →
  step_of id st (accepted id call (app call st).1) (app call st).2.
Proof.
  intros Hwf. rewrite app_eq. destruct call as [token req].
  case_bool_decide.
  - apply step_of_idle; [done|]. by destruct req.
  - by apply endpoint_step.
Qed.

Lemma app_wf call st : Store_wf st → Store_wf (app call st).2.
Proof. intros Hwf. by destruct (app_step 0 call st Hwf). Qed.

Lemma run_wf calls st : Store_wf st → Store_wf (run calls st).
Proof.
  revert st. induction calls as [|call calls IH]; intros st Hwf; [done|].
  simpl. by apply IH, app_wf.
Qed.

End step.

(** ** The watermark gate of Update and Delete *)

Section gate.
Implicit Types (st : Store) (id now : Z) (row : Row.t).

(** C1: for a stored task with watermark [w], an Update or a Delete
    whose request timestamp is at most [w] is rejected with 409
    Conflict and leaves the whole store as it was; with a request
    timestamp above [w] the request is admitted: the Update returns
    the task and the Delete its acknowledgement. *)
Theorem C1_stale_rejected_fresh_admitted st now id row task_update task_delete :
  tasks st !! id = Some row →
  (TaskUpdate.request_timestamp task_update ≤ Row.last_request_timestamp row →
     update_task now id task_update st = (Raise HTTP_409_CONFLICT, st))
  ∧ (TaskDelete.request_timestamp task_delete ≤ Row.last_request_timestamp row →
     delete_task id task_delete st = (Raise HTTP_409_CONFLICT, st))
  ∧ (Row.last_request_timestamp row < TaskUpdate.request_timestamp task_update →
     ∃ r st', update_task now id task_update st = (Return r, st')
       ∧ watermark id st' = Some (TaskUpdate.request_timestamp task_update))
  ∧ (Row.last_request_timestamp row < TaskDelete.request_timestamp task_delete →
     ∃ st', delete_task id task_delete st = (Return deleted_message, st')
       ∧ tasks st' !! id = None).
Proof.
  intros Hrow. repeat split.
  - intros Hts. by eapply update_task_stale.
  - intros Hts. by eapply delete_task_stale.
  - intros Hts. eexists _, _. split; [by eapply update_task_fresh|].
    unfold watermark. simpl. by rewrite lookup_insert_eq.
  - intros Hts. eexists. split; [by eapply delete_task_fresh|].
    apply lookup_delete_eq.
Qed.

(** [update_task] has no path to 400: the two timestamp entries are
    appended to [updates] before [if not updates] looks at it. *)
Remark update_task_never_400 st now id task_update :
  (update_task now id task_update st).1 ≠ Raise HTTP_400_BAD_REQUEST.
Proof.
  destruct (tasks st !! id) as [row|] eqn:Hrow.
  2:{ by rewrite update_task_not_found. }
  destruct (decide (TaskUpdate.request_timestamp task_update
                    ≤ Row.last_request_timestamp row)) as [Hts|Hts].
  - by erewrite update_task_stale.
  - by erewrite update_task_fresh by (done || lia).
Qed.

(** An update without fields and with a fresh timestamp is applied
    like any other: it returns the task, and the stored [updated_at]
    and watermark move. *)
Remark update_task_no_fields_fresh st now id row task_update :
  no_fields task_update →
  tasks st !! id = Some row →
  Row.last_request_timestamp row < TaskUpdate.request_timestamp task_update →
  ∃ row' st',
    update_task now id task_update st = (Return (to_response id row'), st')
    ∧ tasks st' !! id = Some row'
    ∧ Row.updated_at row' = now
    ∧ Row.last_request_timestamp row' = TaskUpdate.request_timestamp task_update.
Proof.
  intros _ Hrow Hts. eexists _, _. split; [by eapply update_task_fresh|].
  simpl. by rewrite lookup_insert_eq.
Qed.

(** C2, as the source has it: an Update that supplies none of the
    optional fields goes through the existence check and the
    watermark gate first.  It fails with 404 when the task does not
    exist and with 409 when its timestamp is at most the watermark,
    and in both cases the store, watermark and [updated_at] included,
    is unchanged. *)
Theorem C2_no_fields_gate_first st now id task_update :
  no_fields task_update →
  (tasks st !! id = None →
     update_task now id task_update st = (Raise HTTP_404_NOT_FOUND, st))
  ∧ (∀ row, tasks st !! id = Some row →
       TaskUpdate.request_timestamp task_update ≤ Row.last_request_timestamp row →
       update_task now id task_update st = (Raise HTTP_409_CONFLICT, st)).
Proof.
  intros _. split.
  - apply update_task_not_found.
  - intros row. apply update_task_stale.
Qed.

End gate.

(** ** Create *)

Section create.
Implicit Types (st : Store) (id now : Z) (row : Row.t).

Lemma not_duplicate_older task st :
  ¬ duplicate task st
  ↔ ∀ id row, tasks st !! id = Some row →
      Row.title row = TaskCreate.title task →
      Row.last_request_timestamp row < TaskCreate.request_timestamp task.
Proof.
  unfold duplicate. split.
  - intros Hnd id row Hrow Htitle.
    destruct (decide (TaskCreate.request_timestamp task
                      ≤ Row.last_request_timestamp row)); [|lia].
    destruct Hnd. eauto.
  - intros Hall (id & row & Hrow & Htitle & Hts).
    specialize (Hall id row Hrow Htitle). lia.
Qed.

(** C4: Create is rejected with 409 Conflict exactly when some stored
    task has the same title and a watermark at or after the request
    timestamp, and then the store is unchanged.  Otherwise, and so
    also when every stored task of that title has a strictly older
    watermark, a new task is inserted under an id no stored task
    has, next to the tasks already there. *)
Theorem C4_duplicate_create_guard st now task :
  Store_wf st →
  ((create_task now task st).1 = Raise HTTP_409_CONFLICT ↔ duplicate task st)
  ∧ (duplicate task st →
     create_task now task st = (Raise HTTP_409_CONFLICT, st))
  ∧ ((∀ id row, tasks st !! id = Some row →
        Row.title row = TaskCreate.title task →
        Row.last_request_timestamp row < TaskCreate.request_timestamp task) →
     ∃ r st', create_task now task st = (Return r, st')
       ∧ tasks st !! TaskResponse.id r = None
       ∧ is_Some (tasks st' !! TaskResponse.id r)
       ∧ ∀ id, id ≠ TaskResponse.id r → tasks st' !! id = tasks st !! id).
Proof.
  intros Hwf. split; [|split].
  - split; [|intros Hd; by rewrite create_task_duplicate].
    intros Hres. destruct (decide (duplicate task st)) as [Hd|Hd]; [done|].
    by rewrite create_task_fresh in Hres.
  - apply create_task_duplicate.
  - intros Hnd%not_duplicate_older. rewrite create_task_fresh by done.
    eexists _, _. split; [done|]. simpl. split; [|split].
    + by apply Store_wf_fresh.
    + rewrite lookup_insert_eq. by eexists.
    + intros id Hid. by rewrite lookup_insert_ne.
Qed.

Lemma create_task_Return_inv now task st r st' :
  create_task now task st = (Return r, st') →
  tasks st !! tasks_id_seq st = None
  ∧ r = to_response (tasks_id_seq st) (inserted_row now task)
  ∧ st' = {| tasks := <[tasks_id_seq st := inserted_row now task]> (tasks st);
             tasks_id_seq := tasks_id_seq st + 1 |}.
Proof.
  intros Hc. destruct (decide (duplicate task st)) as [Hd|Hd].
  { by rewrite create_task_duplicate in Hc. }
  rewrite create_task_no_duplicate in Hc by done. unfold insert_task in Hc.
  destruct (tasks st !! tasks_id_seq st); [done|].
  by injection Hc as <- <-.
Qed.

(** C7: an accepted Create stores, under the id the sequence assigns
    and no stored task has, a task with the request's title, content
    and due date, with [done = false], with [created_at] and
    [updated_at] both the server's current time and with the request's
    timestamp as its watermark, next to the tasks already there; it
    returns the full task: that id, the title, the content, the due
    date, [done = false] and the two times.  A Create without a
    duplicate is accepted. *)
Theorem C7_create_inserts st now task :
  (∀ r st', create_task now task st = (Return r, st') →
     r = {| TaskResponse.id := tasks_id_seq st;
            TaskResponse.title := TaskCreate.title task;
            TaskResponse.content := TaskCreate.content task;
            TaskResponse.due_date := TaskCreate.due_date task;
            TaskResponse.done := false;
            TaskResponse.created_at := now;
            TaskResponse.updated_at := now |}
     ∧ tasks st !! tasks_id_seq st = None
     ∧ tasks st' !! tasks_id_seq st
       = Some {| Row.title := TaskCreate.title task;
                 Row.content := TaskCreate.content task;
                 Row.due_date := TaskCreate.due_date task;
                 Row.done := false;
                 Row.created_at := now;
                 Row.updated_at := now;
                 Row.last_request_timestamp :=
                   TaskCreate.request_timestamp task |}
     ∧ (∀ k, k ≠ tasks_id_seq st → tasks st' !! k = tasks st !! k))
  ∧ (Store_wf st → ¬ duplicate task st →
     ∃ r st', create_task now task st = (Return r, st')).
Proof.
  split.
  - intros r st' (Hfresh & -> & ->)%create_task_Return_inv. simpl.
    split; [done|]. split; [done|]. split; [by rewrite lookup_insert_eq|].
    intros k Hk. by rewrite lookup_insert_ne.
  - intros Hwf Hd. rewrite create_task_fresh by done. by eexists _, _.
Qed.

End create.

(** ** Update: the partial merge *)

Section update.
Implicit Types (st : Store) (id now : Z) (row : Row.t).

(** C5: an accepted Update changes, in the row of its task, only the
    fields its request supplies, [updated_at] and the watermark; the
    id, [created_at], every field the request leaves out, every other
    task and the sequence stay as they were.  With only [done = true]
    supplied, the new row is the old one with [done = true],
    [updated_at = now] and the request's timestamp as watermark. *)
Theorem C5_partial_update st now id row task_update :
  tasks st !! id = Some row →
  Row.last_request_timestamp row < TaskUpdate.request_timestamp task_update →
  ∃ row' st',
    update_task now id task_update st = (Return (to_response id row'), st')
    ∧ tasks st' !! id = Some row'
    ∧ (∀ k, k ≠ id → tasks st' !! k = tasks st !! k)
    ∧ tasks_id_seq st' = tasks_id_seq st
    ∧ Row.title row' = default (Row.title row) (TaskUpdate.title task_update)
    ∧ Row.content row' = default (Row.content row) (TaskUpdate.content task_update)
    ∧ Row.due_date row' = default (Row.due_date row) (TaskUpdate.due_date task_update)
    ∧ Row.done row' = default (Row.done row) (TaskUpdate.done task_update)
    ∧ Row.created_at row' = Row.created_at row
    ∧ Row.updated_at row' = now
    ∧ Row.last_request_timestamp row' = TaskUpdate.request_timestamp task_update
    ∧ (TaskUpdate.title task_update = None →
       TaskUpdate.content task_update = None →
       TaskUpdate.due_date task_update = None →
       TaskUpdate.done task_update = Some true →
       row' = {| Row.title := Row.title row;
                 Row.content := Row.content row;
                 Row.due_date := Row.due_date row;
                 Row.done := true;
                 Row.created_at := Row.created_at row;
                 Row.updated_at := now;
                 Row.last_request_timestamp :=
                   TaskUpdate.request_timestamp task_update |}).
Proof.
  intros Hrow Hts. eexists _, _. split; [by eapply update_task_fresh|].
  simpl. rewrite lookup_insert_eq. repeat split.
  - intros k Hk. by rewrite lookup_insert_ne.
  - intros Ht Hc Hd Hdone. unfold updated_row.
    by rewrite Ht, Hc, Hd, Hdone.
Qed.

End update.

(** ** The queries *)

Section queries.
Implicit Types (st : Store) (id now : Z) (row : Row.t).

#[local] Instance created_at_desc_trans : Transitive created_at_desc.
Proof. unfold created_at_desc. intros a b c. lia. Qed.

#[local] Instance created_at_desc_total : Total created_at_desc.
Proof. unfold created_at_desc. intros a b. lia. Qed.

Lemma update_task_Return_inv now id task_update st r st' :
  update_task now id task_update st = (Return r, st') →
  ∃ row, tasks st !! id = Some row
    ∧ Row.last_request_timestamp row < TaskUpdate.request_timestamp task_update
    ∧ r = to_response id (updated_row now task_update row)
    ∧ st' = {| tasks := <[id := updated_row now task_update row]> (tasks st);
               tasks_id_seq := tasks_id_seq st |}.
Proof.
  intros Hu. destruct (tasks st !! id) as [row|] eqn:Hrow.
  2:{ by rewrite update_task_not_found in Hu. }
  destruct (decide (TaskUpdate.request_timestamp task_update
                    ≤ Row.last_request_timestamp row)) as [Hts|Hts].
  { by erewrite update_task_stale in Hu. }
  erewrite update_task_fresh in Hu by (done || lia).
  injection Hu as <- <-. exists row. repeat split; (done || lia).
Qed.

Lemma delete_task_Return_inv id task_delete st m st' :
  delete_task id task_delete st = (Return m, st') →
  ∃ row, tasks st !! id = Some row
    ∧ Row.last_request_timestamp row < TaskDelete.request_timestamp task_delete
    ∧ m = deleted_message
    ∧ st' = {| tasks := delete id (tasks st); tasks_id_seq := tasks_id_seq st |}.
Proof.
  intros Hd. destruct (tasks st !! id) as [row|] eqn:Hrow.
  2:{ by rewrite delete_task_not_found in Hd. }
  destruct (decide (TaskDelete.request_timestamp task_delete
                    ≤ Row.last_request_timestamp row)) as [Hts|Hts].
  { by erewrite delete_task_stale in Hd. }
  erewrite delete_task_fresh in Hd by (done || lia).
  injection Hd as <- <-. exists row. repeat split; (done || lia).
Qed.

Lemma list_tasks_elem_of st r :
  r ∈ ((λ kv, to_response kv.1 kv.2)
         <$> merge_sort created_at_desc (map_to_list (tasks st)))
  ↔ ∃ row, tasks st !! TaskResponse.id r = Some row
      ∧ r = to_response (TaskResponse.id r) row.
Proof.
  rewrite merge_sort_Permutation, list_elem_of_fmap. split.
  - intros [[k row] [-> Hkv%elem_of_map_to_list]]. by exists row.
  - intros [row [Hrow Hr]]. exists (TaskResponse.id r, row). split; [done|].
    by apply elem_of_map_to_list.
Qed.

(** C8: List returns the stored tasks, each of them once and nothing
    else, every one with its id and its own title, content, due date,
    [done], [created_at] and [updated_at], ordered by [created_at]
    descending. *)
Theorem C8_list_all_newest_first st :
  ∃ l, list_tasks st = (Return l, st)
    ∧ l ≡ₚ (λ kv : Z * Row.t,
              {| TaskResponse.id := kv.1;
                 TaskResponse.title := Row.title kv.2;
                 TaskResponse.content := Row.content kv.2;
                 TaskResponse.due_date := Row.due_date kv.2;
                 TaskResponse.done := Row.done kv.2;
                 TaskResponse.created_at := Row.created_at kv.2;
                 TaskResponse.updated_at := Row.updated_at kv.2 |})
           <$> map_to_list (tasks st)
    ∧ (∀ id row, tasks st !! id = Some row →
         {| TaskResponse.id := id;
            TaskResponse.title := Row.title row;
            TaskResponse.content := Row.content row;
            TaskResponse.due_date := Row.due_date row;
            TaskResponse.done := Row.done row;
            TaskResponse.created_at := Row.created_at row;
            TaskResponse.updated_at := Row.updated_at row |} ∈ l)
    ∧ (∀ r, r ∈ l →
         ∃ row, tasks st !! TaskResponse.id r = Some row
           ∧ TaskResponse.title r = Row.title row
           ∧ TaskResponse.content r = Row.content row
           ∧ TaskResponse.due_date r = Row.due_date row
           ∧ TaskResponse.done r = Row.done row
           ∧ TaskResponse.created_at r = Row.created_at row
           ∧ TaskResponse.updated_at r = Row.updated_at row)
    ∧ length l = size (tasks st)
    ∧ StronglySorted newest_first l.
Proof.
  eexists. split; [apply list_tasks_eq|]. split; [|split; [|split; [|split]]].
  - by rewrite merge_sort_Permutation.
  - intros id row Hrow.
    apply (list_tasks_elem_of st (to_response id row)). by exists row.
  - intros r [row [Hrow ->]]%list_tasks_elem_of. by exists row.
  - rewrite length_fmap, <- length_map_to_list.
    apply Permutation_length, merge_sort_Permutation.
  - apply (StronglySorted_fmap _ created_at_desc).
    + by intros [k1 r1] [k2 r2].
    + apply StronglySorted_merge_sort; apply _.
Qed.

(** C9: Get and List leave the store as it was, and they answer from
    the store as the latest accepted write left it.  Get returns the
    stored columns of the task, or 404.  After an accepted Update, Get
    of that id returns, and List contains, the task with the supplied
    fields, the other fields as they were and [updated_at] the time of
    the Update; after an accepted Create, the task as the request and
    the column defaults make it; after an accepted Delete, Get of that
    id is 404 and List has no task of that id. *)
Theorem C9_reads_do_not_write st id :
  (get_task id st).2 = st
  ∧ (list_tasks st).2 = st
  ∧ (get_task id st).1
    = match tasks st !! id with
      | Some row =>
          Return {| TaskResponse.id := id;
                    TaskResponse.title := Row.title row;
                    TaskResponse.content := Row.content row;
                    TaskResponse.due_date := Row.due_date row;
                    TaskResponse.done := Row.done row;
                    TaskResponse.created_at := Row.created_at row;
                    TaskResponse.updated_at := Row.updated_at row |}
      | None => Raise HTTP_404_NOT_FOUND
      end
  ∧ (∀ now task_update r st',
       update_task now id task_update st = (Return r, st') →
       ∃ row, tasks st !! id = Some row
         ∧ r = {| TaskResponse.id := id;
                  TaskResponse.title :=
                    default (Row.title row) (TaskUpdate.title task_update);
                  TaskResponse.content :=
                    default (Row.content row) (TaskUpdate.content task_update);
                  TaskResponse.due_date :=
                    default (Row.due_date row) (TaskUpdate.due_date task_update);
                  TaskResponse.done :=
                    default (Row.done row) (TaskUpdate.done task_update);
                  TaskResponse.created_at := Row.created_at row;
                  TaskResponse.updated_at := now |}
         ∧ get_task id st' = (Return r, st')
         ∧ ∃ l, list_tasks st' = (Return l, st') ∧ r ∈ l)
  ∧ (∀ now task r st',
       create_task now task st = (Return r, st') →
       r = {| TaskResponse.id := tasks_id_seq st;
              TaskResponse.title := TaskCreate.title task;
              TaskResponse.content := TaskCreate.content task;
              TaskResponse.due_date := TaskCreate.due_date task;
              TaskResponse.done := false;
              TaskResponse.created_at := now;
              TaskResponse.updated_at := now |}
       ∧ get_task (TaskResponse.id r) st' = (Return r, st')
       ∧ ∃ l, list_tasks st' = (Return l, st') ∧ r ∈ l)
  ∧ (∀ task_delete m st',
       delete_task id task_delete st = (Return m, st') →
       get_task id st' = (Raise HTTP_404_NOT_FOUND, st')
       ∧ ∃ l, list_tasks st' = (Return l, st')
           ∧ ∀ r, r ∈ l → TaskResponse.id r ≠ id).
Proof.
  split; [|split; [done|split; [|split; [|split]]]].
  - rewrite get_task_eq. by destruct (tasks st !! id).
  - rewrite get_task_eq. by destruct (tasks st !! id).
  - intros now upd r st' (row & Hrow & Hts & -> & ->)%update_task_Return_inv.
    exists row. split; [done|]. split; [done|].
    rewrite get_task_eq. simpl. rewrite lookup_insert_eq. split; [done|].
    eexists. split; [apply list_tasks_eq|].
    apply (list_tasks_elem_of _ (to_response id (updated_row now upd row))).
    simpl. rewrite lookup_insert_eq. by eexists.
  - intros now task r st' (_ & -> & ->)%create_task_Return_inv.
    split; [done|].
    rewrite get_task_eq. simpl. rewrite lookup_insert_eq. split; [done|].
    eexists. split; [apply list_tasks_eq|].
    apply (list_tasks_elem_of _
             (to_response (tasks_id_seq st) (inserted_row now task))).
    simpl. rewrite lookup_insert_eq. by eexists.
  - intros del m st' (row & Hrow & Hts & -> & ->)%delete_task_Return_inv.
    rewrite get_task_eq. simpl. rewrite lookup_delete_eq. split; [done|].
    eexists. split; [apply list_tasks_eq|].
    intros r [row' [Hr _]]%list_tasks_elem_of Hid.
    rewrite Hid in Hr. simpl in Hr. by rewrite lookup_delete_eq in Hr.
Qed.

End queries.

(** ** Authentication *)

Section authentication.

(** C10: [verify_token] raises 401 exactly when the token is empty or
    shorter than 10 characters; every token of 10 characters or more
    is accepted and gives the same demo identity.  The outcome is the
    same in every store, and the store is left as it was. *)
Theorem C10_verify_token token st :
  ((verify_token token st).1 = Raise HTTP_401_UNAUTHORIZED
     ↔ token = EmptyString ∨ (String.length token < 10)%nat)
  ∧ ((10 ≤ String.length token)%nat →
     (verify_token token st).1 = Return demo_user)
  ∧ (verify_token token st).2 = st
  ∧ ∀ st', (verify_token token st').1 = (verify_token token st).1.
Proof.
  unfold verify_token. case_bool_decide as Htok; simpl.
  - repeat split; try done.
    intros Hlen. destruct Htok as [->|Hlt]; simpl in *; lia.
  - repeat split; try done.
Qed.

End authentication.

(** ** Sequences of calls *)

Section sequences.
Implicit Types (st : Store) (id now : Z) (row : Row.t).
Implicit Types (calls : list (string * Request)).

Lemma watermark_Some id st ts :
  watermark id st = Some ts →
  ∃ row, tasks st !! id = Some row ∧ Row.last_request_timestamp row = ts.
Proof.
  unfold watermark. destruct (tasks st !! id) as [row|]; [|done].
  intros [= <-]. by exists row.
Qed.

(** The two logs of one identity: both sorted, both above the
    watermark the identity starts with, both empty once the identity
    is gone. *)
Lemma logs_sorted id calls : ∀ st,
  Store_wf st →
  StronglySorted Z.lt (accepted_timestamps id calls st)
  ∧ StronglySorted Z.le (watermarks id calls st)
  ∧ (∀ row, tasks st !! id = Some row →
       Forall (Z.lt (Row.last_request_timestamp row))
         (accepted_timestamps id calls st)
       ∧ Forall (Z.le (Row.last_request_timestamp row))
           (watermarks id calls st))
  ∧ (tasks st !! id = None → id < tasks_id_seq st →
       accepted_timestamps id calls st = [] ∧ watermarks id calls st = []).
Proof.
  induction calls as [|call calls IH]; intros st Hwf.
  { simpl. unfold watermark. split; [constructor|].
    destruct (tasks st !! id) as [row|] eqn:Hrow; simpl.
    - split; [by repeat constructor|]. split; [|done].
      intros ? [= <-]. split; [done|]. by repeat constructor.
    - by repeat split; try constructor. }
  simpl. pose proof (app_step id call st Hwf) as Hstep.
  destruct (app call st) as [res st'] eqn:Happ. simpl in *.
  destruct Hstep as (Hwf' & Hseq & Hacc).
  destruct (IH st' Hwf') as (IHa & IHw & IHlive & IHdead). clear IH.
  assert (Hwm : watermark id st
                = Row.last_request_timestamp <$> tasks st !! id) by done.
  rewrite Hwm. clear Hwm.
  destruct (accepted id call res) as [ts|].
  - destruct (tasks st !! id) as [row|] eqn:Hrow; simpl.
    + destruct Hacc as [Hts Hst'].
      assert (Hid : id < tasks_id_seq st') by
        (pose proof (Store_wf_lookup st id row Hwf Hrow); lia).
      assert (Forall (Z.lt ts) (accepted_timestamps id calls st')
              ∧ Forall (Z.le ts) (watermarks id calls st')) as [Ha Hw].
      { destruct Hst' as [Hlive|Hgone].
        - apply watermark_Some in Hlive as (row' & Hrow' & <-).
          by apply IHlive.
        - destruct (IHdead Hgone Hid) as [-> ->]. by split. }
      split; [by constructor|].
      split; [constructor; [done|]; eapply Forall_impl; [exact Hw|]; simpl; lia|].
      split; [|done]. intros ? [= <-]. split.
      * constructor; [done|]. eapply Forall_impl; [exact Ha|]. simpl. lia.
      * constructor; [done|]. eapply Forall_impl; [exact Hw|]. simpl. lia.
    + destruct Hacc as [Hfresh Hlive].
      apply watermark_Some in Hlive as (row' & Hrow' & <-).
      destruct (IHlive row' Hrow') as [Ha Hw].
      split; [by constructor|]. split; [done|]. split; [done|]. lia.
  - rewrite <- Hacc.
    destruct (tasks st' !! id) as [row|] eqn:Hrow; simpl.
    + destruct (IHlive row eq_refl) as [Ha Hw].
      split; [done|]. split; [by constructor|]. split; [|done].
      intros ? [= <-]. split; [done|]. by constructor.
    + split; [done|]. split; [done|]. split; [done|].
      intros _ Hid. apply IHdead; [done|lia].
Qed.

(** X16: when the calls are served one after the other, on a store
    whose ids all come from the sequence, the watermark stored for one
    identity never decreases from one call to the next, and the request
    timestamps accepted for that identity (its create, then its
    updates, then its delete) are strictly increasing. *)
Theorem serial_watermark_monotone id calls st :
  Store_wf st →
  StronglySorted Z.le (watermarks id calls st)
  ∧ StronglySorted Z.lt (accepted_timestamps id calls st).
Proof.
  intros Hwf. by destruct (logs_sorted id calls st Hwf) as (Ha & Hw & _).
Qed.

(** [update_task] is its two statements, one after the other. *)
Lemma update_task_statements now id task_update st :
  update_task now id task_update st
  = (let* updates := update_task_select id task_update in
     update_task_write now id updates) st.
Proof.
  unfold update_task, update_task_select, update_task_write, bind, select_by_id.
  destruct (tasks st !! id) as [row|]; simpl; [|done].
  case_bool_decide; simpl; [done|].
  by destruct (build_updates task_update).
Qed.

(** C3: two Updates of task 1, whose watermark is 10, overlap: one
    with request timestamp 12, one with 15.  Both run their SELECT
    before either runs its UPDATE, so both pass the gate against
    watermark 10; the UPDATE of the one with 15 runs first, the UPDATE
    of the one with 12 after it.  Both are accepted, in the order 15
    then 12, and the stored watermark goes from 10 to 15 and back to
    12. *)
Theorem C3_interleaved_updates_lower_watermark :
  update_task_select 1 (TaskUpdate.mk None None None (Some true) 12) store_one
  = (Return (build_updates (TaskUpdate.mk None None None (Some true) 12)),
     store_one)
  ∧ update_task_select 1 (TaskUpdate.mk (Some "Z") None None None 15) store_one
    = (Return (build_updates (TaskUpdate.mk (Some "Z") None None None 15)),
       store_one)
  ∧ (update_task_write 1001 1
       (build_updates (TaskUpdate.mk (Some "Z") None None None 15)) store_one).1
    = Return {| TaskResponse.id := 1; TaskResponse.title := "Z";
                TaskResponse.content := "first"; TaskResponse.due_date := 20000;
                TaskResponse.done := false; TaskResponse.created_at := 1000;
                TaskResponse.updated_at := 1001 |}
  ∧ (update_task_write 1002 1
       (build_updates (TaskUpdate.mk None None None (Some true) 12))
       (update_task_write 1001 1
          (build_updates (TaskUpdate.mk (Some "Z") None None None 15))
          store_one).2).1
    = Return {| TaskResponse.id := 1; TaskResponse.title := "Z";
                TaskResponse.content := "first"; TaskResponse.due_date := 20000;
                TaskResponse.done := true; TaskResponse.created_at := 1000;
                TaskResponse.updated_at := 1002 |}
  ∧ watermark 1 store_one = Some 10
  ∧ watermark 1
      (update_task_write 1001 1
         (build_updates (TaskUpdate.mk (Some "Z") None None None 15))
         store_one).2
    = Some 15
  ∧ watermark 1
      (update_task_write 1002 1
         (build_updates (TaskUpdate.mk None None None (Some true) 12))
         (update_task_write 1001 1
            (build_updates (TaskUpdate.mk (Some "Z") None None None 15))
            store_one).2).2
    = Some 12.
Proof. by vm_compute. Qed.

Lemma gone_for_good id calls : ∀ st,
  Store_wf st → tasks st !! id = None → id < tasks_id_seq st →
  tasks (run calls st) !! id = None.
Proof.
  induction calls as [|call calls IH]; intros st Hwf Hgone Hid; [done|].
  simpl. destruct (app_step id call st Hwf) as (Hwf' & Hseq & Hacc).
  rewrite Hgone in Hacc. apply IH; [done| |lia].
  destruct (accepted id call (app call st).1); [lia|done].
Qed.

(** C6: after an accepted Delete of an id, and after any sequence of
    further calls, Get, Update and Delete of that id are 404, whatever
    their request timestamps. *)
Theorem C6_delete_is_terminal st id task_delete m st' calls :
  Store_wf st →
  delete_task id task_delete st = (Return m, st') →
  get_task id (run calls st') = (Raise HTTP_404_NOT_FOUND, run calls st')
  ∧ (∀ now task_update,
       update_task now id task_update (run calls st')
       = (Raise HTTP_404_NOT_FOUND, run calls st'))
  ∧ (∀ task_delete',
       delete_task id task_delete' (run calls st')
       = (Raise HTTP_404_NOT_FOUND, run calls st')).
Proof.
  intros Hwf (row & Hrow & Hts & -> & ->)%delete_task_Return_inv.
  assert (Hgone : tasks (run calls
    {| tasks := delete id (tasks st); tasks_id_seq := tasks_id_seq st |})
    !! id = None).
  { apply gone_for_good; simpl.
    - by apply Store_wf_delete.
    - apply lookup_delete_eq.
    - by eapply Store_wf_lookup. }
  split; [|split].
  - by rewrite get_task_eq, Hgone.
  - intros now upd. by apply update_task_not_found.
  - intros del'. by apply delete_task_not_found.
Qed.

End sequences.

(** ** The handlers on concrete requests *)

Section examples.

Lemma store_one_wf : Store_wf store_one.
Proof. by apply (bool_decide_unpack _). Qed.

Lemma store_one_lookup : tasks store_one !! 1 = Some row_one.
Proof. by vm_compute. Qed.

Lemma store_one_tasks : tasks store_one = {[1 := row_one]}.
Proof. by vm_compute. Qed.

Lemma store_one_lookup_5 : tasks store_one !! 5 = None.
Proof. by vm_compute. Qed.

Example demo_calls_accepted :
  accepted_timestamps 1 demo_calls init_database = [10; 12; 15; 20].
Proof. by vm_compute. Qed.

Example demo_calls_watermarks :
  watermarks 1 demo_calls init_database = [10; 12; 12; 15].
Proof. by vm_compute. Qed.

(** An update without fields and with a fresh timestamp on task 1 of
    [store_one]: accepted, and the watermark moves from 10 to 11. *)
Example update_task_no_fields_accepted :
  (update_task 1001 1 (TaskUpdate.mk None None None None 11) store_one).1
  = Return {| TaskResponse.id := 1; TaskResponse.title := "X";
              TaskResponse.content := "first"; TaskResponse.due_date := 20000;
              TaskResponse.done := false; TaskResponse.created_at := 1000;
              TaskResponse.updated_at := 1001 |}
  ∧ watermark 1 store_one = Some 10
  ∧ watermark 1
      (update_task 1001 1 (TaskUpdate.mk None None None None 11) store_one).2
    = Some 11.
Proof. by vm_compute. Qed.

Lemma C1_witness :
  tasks store_one !! 1 = Some row_one
  ∧ update_task 1001 1 (TaskUpdate.mk None None None (Some true) 10) store_one
    = (Raise HTTP_409_CONFLICT, store_one)
  ∧ delete_task 1 (TaskDelete.mk 9) store_one
    = (Raise HTTP_409_CONFLICT, store_one)
  ∧ (∃ r st',
       update_task 1001 1 (TaskUpdate.mk None None None (Some true) 11) store_one
       = (Return r, st')
       ∧ watermark 1 st' = Some 11)
  ∧ (∃ st',
       delete_task 1 (TaskDelete.mk 11) store_one = (Return deleted_message, st')
       ∧ tasks st' !! 1 = None).
Proof.
  split; [exact store_one_lookup|].
  destruct (C1_stale_rejected_fresh_admitted store_one 1001 1 row_one
              (TaskUpdate.mk None None None (Some true) 10) (TaskDelete.mk 9)
              store_one_lookup) as (Hu & Hd & _ & _).
  destruct (C1_stale_rejected_fresh_admitted store_one 1001 1 row_one
              (TaskUpdate.mk None None None (Some true) 11) (TaskDelete.mk 11)
              store_one_lookup) as (_ & _ & Hu' & Hd').
  split; [apply Hu; simpl; lia|].
  split; [apply Hd; simpl; lia|].
  split; [apply Hu'; simpl; lia|apply Hd'; simpl; lia].
Defined.

(** An update without fields and with a stale timestamp is a 409, not
    a 400: the gate is decided first. *)
Lemma C2_counterexample :
  no_fields (TaskUpdate.mk None None None None 10)
  ∧ watermark 1 store_one = Some 10
  ∧ update_task 1001 1 (TaskUpdate.mk None None None None 10) store_one
    = (Raise HTTP_409_CONFLICT, store_one)
  ∧ (update_task 1001 1 (TaskUpdate.mk None None None None 10) store_one).1
    ≠ Raise HTTP_400_BAD_REQUEST.
Proof. by vm_compute. Qed.

Lemma C2_witness :
  no_fields (TaskUpdate.mk None None None None 10)
  ∧ tasks store_one !! 5 = None
  ∧ update_task 1001 5 (TaskUpdate.mk None None None None 10) store_one
    = (Raise HTTP_404_NOT_FOUND, store_one)
  ∧ tasks store_one !! 1 = Some row_one
  ∧ update_task 1001 1 (TaskUpdate.mk None None None None 10) store_one
    = (Raise HTTP_409_CONFLICT, store_one).
Proof.
  assert (Hnf : no_fields (TaskUpdate.mk None None None None 10)) by done.
  split; [exact Hnf|]. split; [exact store_one_lookup_5|].
  split; [|split; [exact store_one_lookup|]].
  - apply (C2_no_fields_gate_first store_one 1001 5 _ Hnf), store_one_lookup_5.
  - apply (proj2 (C2_no_fields_gate_first store_one 1001 1 _ Hnf) row_one
             store_one_lookup).
    simpl. lia.
Defined.

Lemma serial_watermark_monotone_witness :
  Store_wf init_database
  ∧ StronglySorted Z.le (watermarks 1 demo_calls init_database)
  ∧ StronglySorted Z.lt (accepted_timestamps 1 demo_calls init_database).
Proof.
  assert (Hwf : Store_wf init_database) by (by apply (bool_decide_unpack _)).
  split; [exact Hwf|].
  exact (serial_watermark_monotone 1 demo_calls init_database Hwf).
Defined.

Lemma C4_witness :
  Store_wf store_one
  ∧ ((create_task 1001 (TaskCreate.mk "X" "again" 20001 9) store_one).1
     = Raise HTTP_409_CONFLICT)
  ∧ ∃ r st',
      create_task 1001 (TaskCreate.mk "X" "again" 20001 11) store_one
      = (Return r, st')
      ∧ tasks store_one !! TaskResponse.id r = None
      ∧ is_Some (tasks st' !! TaskResponse.id r)
      ∧ ∀ id, id ≠ TaskResponse.id r → tasks st' !! id = tasks store_one !! id.
Proof.
  split; [exact store_one_wf|].
  destruct (C4_duplicate_create_guard store_one 1001
              (TaskCreate.mk "X" "again" 20001 9) store_one_wf) as (Hiff & _ & _).
  destruct (C4_duplicate_create_guard store_one 1001
              (TaskCreate.mk "X" "again" 20001 11) store_one_wf) as (_ & _ & Hnew).
  split.
  - apply Hiff. exists 1, row_one.
    split; [exact store_one_lookup|]. simpl. split; [done|lia].
  - apply Hnew. intros id row Hrow _.
    destruct (decide (id = 1)) as [->|Hid].
    + rewrite store_one_lookup in Hrow. injection Hrow as <-. simpl. lia.
    + exfalso. rewrite store_one_tasks in Hrow.
      by rewrite lookup_singleton_ne in Hrow.
Defined.

Lemma C5_witness :
  tasks store_one !! 1 = Some row_one
  ∧ ∃ st',
      update_task 1001 1 (TaskUpdate.mk None None None (Some true) 11) store_one
      = (Return {| TaskResponse.id := 1; TaskResponse.title := "X";
                   TaskResponse.content := "first";
                   TaskResponse.due_date := 20000;
                   TaskResponse.done := true;
                   TaskResponse.created_at := 1000;
                   TaskResponse.updated_at := 1001 |}, st')
      ∧ tasks st' !! 1
        = Some {| Row.title := "X"; Row.content := "first";
                  Row.due_date := 20000; Row.done := true;
                  Row.created_at := 1000; Row.updated_at := 1001;
                  Row.last_request_timestamp := 11 |}.
Proof.
  split; [exact store_one_lookup|].
  destruct (C5_partial_update store_one 1001 1 row_one
              (TaskUpdate.mk None None None (Some true) 11) store_one_lookup)
    as (row' & st' & Hu & Hrow' & _ & _ & _ & _ & _ & _ & _ & _ & _ & Hdone).
  { simpl. lia. }
  exists st'. rewrite (Hdone eq_refl eq_refl eq_refl eq_refl) in Hu, Hrow'.
  by split.
Defined.

(** After the delete of task 1, the title of task 1 is created again
    and task 1 is updated with a later timestamp: a new task 2, and
    task 1 stays gone. *)
Lemma C6_witness :
  Store_wf store_one
  ∧ delete_task 1 (TaskDelete.mk 11) store_one
    = (Return deleted_message, (delete_task 1 (TaskDelete.mk 11) store_one).2)
  ∧ (let st := run [ (demo_token, CreateTask 1002 (TaskCreate.mk "X" "again" 20001 12));
                     (demo_token, UpdateTask 1003 1
                                    (TaskUpdate.mk None None None (Some true) 13)) ]
                 (delete_task 1 (TaskDelete.mk 11) store_one).2 in
     get_task 1 st = (Raise HTTP_404_NOT_FOUND, st)
     ∧ update_task 1004 1 (TaskUpdate.mk None None None (Some true) 99) st
       = (Raise HTTP_404_NOT_FOUND, st)
     ∧ delete_task 1 (TaskDelete.mk 99) st = (Raise HTTP_404_NOT_FOUND, st)).
Proof.
  assert (Hdel : delete_task 1 (TaskDelete.mk 11) store_one
                 = (Return deleted_message,
                    (delete_task 1 (TaskDelete.mk 11) store_one).2))
    by (by vm_compute).
  split; [exact store_one_wf|]. split; [exact Hdel|].
  destruct (C6_delete_is_terminal store_one 1 (TaskDelete.mk 11) deleted_message
              (delete_task 1 (TaskDelete.mk 11) store_one).2
              [ (demo_token, CreateTask 1002 (TaskCreate.mk "X" "again" 20001 12));
                (demo_token, UpdateTask 1003 1
                               (TaskUpdate.mk None None None (Some true) 13)) ]
              store_one_wf Hdel) as (Hg & Hu & Hd).
  split; [exact Hg|]. split; [apply Hu|apply Hd].
Defined.

Lemma C7_witness :
  Store_wf init_database
  ∧ ¬ duplicate (TaskCreate.mk "X" "first" 20000 10) init_database
  ∧ ∃ st',
      create_task 1000 (TaskCreate.mk "X" "first" 20000 10) init_database
      = (Return {| TaskResponse.id := 1; TaskResponse.title := "X";
                   TaskResponse.content := "first";
                   TaskResponse.due_date := 20000;
                   TaskResponse.done := false;
                   TaskResponse.created_at := 1000;
                   TaskResponse.updated_at := 1000 |}, st')
      ∧ tasks st' !! 1
        = Some {| Row.title := "X"; Row.content := "first";
                  Row.due_date := 20000; Row.done := false;
                  Row.created_at := 1000; Row.updated_at := 1000;
                  Row.last_request_timestamp := 10 |}.
Proof.
  assert (Hwf : Store_wf init_database) by (by apply (bool_decide_unpack _)).
  assert (Hnd : ¬ duplicate (TaskCreate.mk "X" "first" 20000 10) init_database)
    by (by apply (bool_decide_unpack _)).
  split; [exact Hwf|]. split; [exact Hnd|].
  destruct (C7_create_inserts init_database 1000
              (TaskCreate.mk "X" "first" 20000 10)) as [Hrow Hacc].
  destruct (Hacc Hwf Hnd) as (r & st' & Hc).
  destruct (Hrow r st' Hc) as (Hr & _ & Hst' & _).
  exists st'. rewrite Hr in Hc. by split.
Defined.

Lemma C9_witness :
  (get_task 1 store_one).2 = store_one
  ∧ (list_tasks store_one).2 = store_one
  ∧ (get_task 1 store_one).1
    = Return {| TaskResponse.id := 1; TaskResponse.title := "X";
                TaskResponse.content := "first";
                TaskResponse.due_date := 20000;
                TaskResponse.done := false;
                TaskResponse.created_at := 1000;
                TaskResponse.updated_at := 1000 |}
  ∧ ∃ st',
      update_task 1001 1 (TaskUpdate.mk None None None (Some true) 11) store_one
      = (Return {| TaskResponse.id := 1; TaskResponse.title := "X";
                   TaskResponse.content := "first";
                   TaskResponse.due_date := 20000;
                   TaskResponse.done := true;
                   TaskResponse.created_at := 1000;
                   TaskResponse.updated_at := 1001 |}, st')
      ∧ get_task 1 st'
        = (Return {| TaskResponse.id := 1; TaskResponse.title := "X";
                     TaskResponse.content := "first";
                     TaskResponse.due_date := 20000;
                     TaskResponse.done := true;
                     TaskResponse.created_at := 1000;
                     TaskResponse.updated_at := 1001 |}, st').
Proof.
  destruct (C9_reads_do_not_write store_one 1) as (Hg & Hl & Hget & Hu & _ & _).
  split; [exact Hg|]. split; [exact Hl|].
  split; [by rewrite Hget, store_one_lookup|].
  assert (Hts : Row.last_request_timestamp row_one < 11) by (simpl; lia).
  pose proof (update_task_fresh 1001 1
                (TaskUpdate.mk None None None (Some true) 11)
                store_one row_one store_one_lookup Hts) as Hupd.
  destruct (Hu 1001 _ _ _ Hupd) as (row & Hrow & Hr & Hget' & _).
  eexists. split; [exact Hupd|]. exact Hget'.
Defined.

Lemma C10_witness :
  (verify_token "123456789" store_one).1 = Raise HTTP_401_UNAUTHORIZED
  ∧ (10 ≤ String.length demo_token)%nat
  ∧ (verify_token demo_token store_one).1 = Return demo_user.
Proof.
  destruct (C10_verify_token "123456789" store_one) as (Hiff & _).
  destruct (C10_verify_token demo_token store_one) as (_ & Hok & _).
  split; [apply Hiff; right; simpl; lia|].
  split; [simpl; lia|]. apply Hok. simpl. lia.
Defined.

End examples.


(** * Further properties of the handlers *)

(** ** One call, seen from one row *)

Section rows.
Implicit Types (st : Store) (id now : Z) (row : Row.t).
Implicit Types (calls : list (string * Request)).

(** What one call can do to a stored row: nothing, an accepted Update
    of it, or an accepted Delete of it. *)
Lemma app_row_step id call st row :
  Store_wf st → tasks st !! id = Some row →
  tasks (app call st).2 !! id = Some row
  ∨ (∃ now task_update,
       call.2 = UpdateTask now id task_update
       ∧ Row.last_request_timestamp row
         < TaskUpdate.request_timestamp task_update
       ∧ tasks (app call st).2 !! id
         = Some (updated_row now task_update row))
  ∨ (∃ task_delete,
       call.2 = DeleteTask id task_delete
       ∧ Row.last_request_timestamp row
         < TaskDelete.request_timestamp task_delete
       ∧ tasks (app call st).2 !! id = None).
Proof.
  intros Hwf Hrow. rewrite app_eq. destruct call as [token req]. simpl.
  case_bool_decide; [by left|].
  destruct req as [now task| |task_id|now task_id upd|task_id del];
    unfold endpoint, bind.
  - destruct (decide (duplicate task st)) as [Hd|Hd].
    + rewrite create_task_duplicate by done. by left.
    + rewrite create_task_fresh by done. left. simpl.
      rewrite lookup_insert_ne; [done|].
      pose proof (Store_wf_lookup st id row Hwf Hrow). lia.
  - by left.
  - rewrite get_task_eq. left. by destruct (tasks st !! task_id).
  - destruct (tasks st !! task_id) as [cur|] eqn:Hcur.
    2:{ rewrite update_task_not_found by done. by left. }
    destruct (decide (TaskUpdate.request_timestamp upd
                      ≤ Row.last_request_timestamp cur)) as [Hts|Hts].
    { erewrite update_task_stale by done. by left. }
    erewrite update_task_fresh by (done || lia). simpl.
    destruct (decide (task_id = id)) as [->|Hne].
    + right; left. exists now, upd. rewrite Hrow in Hcur. injection Hcur as ->.
      split; [done|]. split; [lia|]. by rewrite lookup_insert_eq.
    + left. by rewrite lookup_insert_ne.
  - destruct (tasks st !! task_id) as [cur|] eqn:Hcur.
    2:{ rewrite delete_task_not_found by done. by left. }
    destruct (decide (TaskDelete.request_timestamp del
                      ≤ Row.last_request_timestamp cur)) as [Hts|Hts].
    { erewrite delete_task_stale by done. by left. }
    erewrite delete_task_fresh by (done || lia). simpl.
    destruct (decide (task_id = id)) as [->|Hne].
    + right; right. exists del. rewrite Hrow in Hcur. injection Hcur as ->.
      split; [done|]. split; [lia|]. by rewrite lookup_delete_eq.
    + left. by rewrite lookup_delete_ne.
Qed.

(** X1: A call that raises has written nothing. *)
Theorem raise_leaves_store st call e :
  Store_wf st →
  (app call st).1 = Raise e →
  (app call st).2 = st.
Proof.
  intros Hwf. rewrite app_eq. destruct call as [token req]. simpl.
  case_bool_decide; [done|].
  destruct req as [now task| |task_id|now task_id upd|task_id del];
    unfold endpoint, bind.
  - destruct (decide (duplicate task st)) as [Hd|Hd].
    + by rewrite create_task_duplicate.
    + by rewrite create_task_fresh.
  - done.
  - rewrite get_task_eq. by destruct (tasks st !! task_id).
  - destruct (tasks st !! task_id) as [cur|] eqn:Hcur.
    2:{ by rewrite update_task_not_found. }
    destruct (decide (TaskUpdate.request_timestamp upd
                      ≤ Row.last_request_timestamp cur)) as [Hts|Hts].
    { by erewrite update_task_stale. }
    by erewrite update_task_fresh by (done || lia).
  - destruct (tasks st !! task_id) as [cur|] eqn:Hcur.
    2:{ by rewrite delete_task_not_found. }
    destruct (decide (TaskDelete.request_timestamp del
                      ≤ Row.last_request_timestamp cur)) as [Hts|Hts].
    { by erewrite delete_task_stale. }
    by erewrite delete_task_fresh by (done || lia).
Qed.

(** X2: [update_task] never raises 400: its [if not updates] runs
    after the two timestamp entries were appended.  An Update that
    supplies no field and has a timestamp above the watermark is
    applied like any other: it returns the task with its fields as
    they were and [updated_at] the server's time, and it stores that
    time and its timestamp as the new watermark. *)
Theorem update_task_applies_no_fields st now id task_update :
  (update_task now id task_update st).1 ≠ Raise HTTP_400_BAD_REQUEST
  ∧ (no_fields task_update →
     ∀ row, tasks st !! id = Some row →
       Row.last_request_timestamp row
       < TaskUpdate.request_timestamp task_update →
       update_task now id task_update st
       = (Return {| TaskResponse.id := id;
                    TaskResponse.title := Row.title row;
                    TaskResponse.content := Row.content row;
                    TaskResponse.due_date := Row.due_date row;
                    TaskResponse.done := Row.done row;
                    TaskResponse.created_at := Row.created_at row;
                    TaskResponse.updated_at := now |},
          {| tasks :=
               <[id := {| Row.title := Row.title row;
                          Row.content := Row.content row;
                          Row.due_date := Row.due_date row;
                          Row.done := Row.done row;
                          Row.created_at := Row.created_at row;
                          Row.updated_at := now;
                          Row.last_request_timestamp :=
                            TaskUpdate.request_timestamp task_update |}]>
                 (tasks st);
             tasks_id_seq := tasks_id_seq st |})).
Proof.
  split.
  - destruct (tasks st !! id) as [row|] eqn:Hrow.
    2:{ by rewrite update_task_not_found. }
    destruct (decide (TaskUpdate.request_timestamp task_update
                      ≤ Row.last_request_timestamp row)) as [Hts|Hts].
    + by erewrite update_task_stale.
    + by erewrite update_task_fresh by (done || lia).
  - intros (Ht & Hc & Hd & Hdone) row Hrow Hts.
    erewrite update_task_fresh by done.
    unfold updated_row, to_response. simpl. by rewrite Ht, Hc, Hd, Hdone.
Qed.

(** X3: Over any sequence of calls, a task that is still stored has the
    [created_at] it had before. *)
Theorem created_at_never_changes id calls : ∀ st row row',
  Store_wf st →
  tasks st !! id = Some row →
  tasks (run calls st) !! id = Some row' →
  Row.created_at row' = Row.created_at row.
Proof.
  induction calls as [|call calls IH]; intros st row row' Hwf Hrow Hrow'.
  { simpl in Hrow'. congruence. }
  simpl in Hrow'. pose proof (app_wf call st Hwf) as Hwf'.
  destruct (app_row_step id call st row Hwf Hrow)
    as [Hsame|[(now & upd & _ & _ & Hupd)|(del & _ & _ & Hgone)]].
  - by eapply IH.
  - by rewrite (IH _ _ _ Hwf' Hupd Hrow').
  - rewrite gone_for_good in Hrow'; [done|done|done|].
    pose proof (Store_wf_lookup st id row Hwf Hrow).
    destruct (app_step id call st Hwf) as (_ & Hseq & _). lia.
Qed.

(** X4: After any sequence of calls, the watermark stored for a task is the
    last request timestamp accepted for it, or the watermark it started
    with when none was accepted. *)
Theorem watermark_is_last_accepted id calls : ∀ st w,
  Store_wf st →
  watermark id (run calls st) = Some w →
  last (option_list (watermark id st) ++ accepted_timestamps id calls st)
  = Some w.
Proof.
  induction calls as [|call calls IH]; intros st w Hwf Hw.
  { simpl in *. rewrite Hw. by rewrite app_nil_r. }
  simpl in *. pose proof (app_step id call st Hwf) as Hstep.
  destruct (app call st) as [res st'] eqn:Happ. simpl in *.
  destruct Hstep as (Hwf' & Hseq & Hacc).
  specialize (IH st' w Hwf' Hw).
  assert (Hwm : ∀ s, watermark id s
                     = Row.last_request_timestamp <$> tasks s !! id) by done.
  destruct (accepted id call res) as [ts|].
  - destruct (tasks st !! id) as [row|] eqn:Hrow.
    + destruct Hacc as [Hts [Hlive|Hgone]].
      * rewrite Hlive in IH. rewrite (Hwm st), Hrow. simpl in *.
        by destruct (accepted_timestamps id calls st').
      * exfalso. rewrite Hwm, gone_for_good in Hw; [done|done|done|].
        pose proof (Store_wf_lookup st id row Hwf Hrow). lia.
    + destruct Hacc as [_ Hlive]. rewrite Hlive in IH.
      by rewrite (Hwm st), Hrow.
  - by rewrite (Hwm st), <- Hacc, <- Hwm.
Qed.

End rows.


(** ** How calls compose *)

Section composition.
Implicit Types (st : Store) (id now : Z) (row : Row.t).

(** X5: Replaying an accepted mutation right after it was accepted: the
    Update and the Create are 409, the Delete is 404, and the replay
    writes nothing. *)
Theorem replay_is_rejected st :
  (∀ now now' id task_update r st',
     update_task now id task_update st = (Return r, st') →
     update_task now' id task_update st' = (Raise HTTP_409_CONFLICT, st'))
  ∧ (∀ now now' task r st',
       create_task now task st = (Return r, st') →
       create_task now' task st' = (Raise HTTP_409_CONFLICT, st'))
  ∧ (∀ id task_delete m st',
       delete_task id task_delete st = (Return m, st') →
       delete_task id task_delete st' = (Raise HTTP_404_NOT_FOUND, st')).
Proof.
  split; [|split].
  - intros now now' id upd r st' (row & Hrow & Hts & -> & ->)%update_task_Return_inv.
    eapply update_task_stale; simpl; [apply lookup_insert_eq|]. simpl. lia.
  - intros now now' task r st' (Hfresh & -> & ->)%create_task_Return_inv.
    apply create_task_duplicate.
    exists (tasks_id_seq st), (inserted_row now task). simpl.
    rewrite lookup_insert_eq. split; [done|]. split; [done|lia].
  - intros id del m st' (row & Hrow & Hts & -> & ->)%delete_task_Return_inv.
    apply delete_task_not_found. simpl. apply lookup_delete_eq.
Qed.

(** X6: Two Updates of one task, both newer than its watermark, the first
    older than the second.  Delivered in order, both are applied.
    Delivered out of order, the newer is applied and the older is a 409
    that writes nothing.  Either way the watermark ends at the newer
    timestamp. *)
Theorem out_of_order_pair st id row now1 now2 u1 u2 :
  tasks st !! id = Some row →
  Row.last_request_timestamp row < TaskUpdate.request_timestamp u1 →
  TaskUpdate.request_timestamp u1 < TaskUpdate.request_timestamp u2 →
  (∃ r1 st1 r2 st12,
     update_task now1 id u1 st = (Return r1, st1)
     ∧ update_task now2 id u2 st1 = (Return r2, st12)
     ∧ tasks st12 !! id
       = Some (updated_row now2 u2 (updated_row now1 u1 row)))
  ∧ (∃ r2 st2,
       update_task now2 id u2 st = (Return r2, st2)
       ∧ update_task now1 id u1 st2 = (Raise HTTP_409_CONFLICT, st2)
       ∧ tasks st2 !! id = Some (updated_row now2 u2 row))
  ∧ watermark id (update_task now2 id u2 (update_task now1 id u1 st).2).2
    = Some (TaskUpdate.request_timestamp u2)
  ∧ watermark id (update_task now1 id u1 (update_task now2 id u2 st).2).2
    = Some (TaskUpdate.request_timestamp u2).
Proof.
  intros Hrow Ht1 Ht2.
  assert (Ht : Row.last_request_timestamp row
               < TaskUpdate.request_timestamp u2) by lia.
  pose proof (update_task_fresh now1 id u1 st row Hrow Ht1) as H1.
  pose proof (update_task_fresh now2 id u2 st row Hrow Ht) as H2.
  set (st1 := {| tasks := <[id := updated_row now1 u1 row]> (tasks st);
                 tasks_id_seq := tasks_id_seq st |}) in *.
  set (st2 := {| tasks := <[id := updated_row now2 u2 row]> (tasks st);
                 tasks_id_seq := tasks_id_seq st |}) in *.
  assert (Hrow1 : tasks st1 !! id = Some (updated_row now1 u1 row))
    by apply lookup_insert_eq.
  assert (Hrow2 : tasks st2 !! id = Some (updated_row now2 u2 row))
    by apply lookup_insert_eq.
  pose proof (update_task_fresh now2 id u2 st1 _ Hrow1 Ht2) as H12.
  assert (H21 : update_task now1 id u1 st2 = (Raise HTTP_409_CONFLICT, st2)).
  { apply (update_task_stale now1 id u1 st2 _ Hrow2). simpl. lia. }
  split; [|split; [|split]].
  - eexists _, _, _, _. split; [exact H1|]. split; [exact H12|].
    simpl. apply lookup_insert_eq.
  - eexists _, _. split; [exact H2|]. split; [exact H21|].
    apply lookup_insert_eq.
  - rewrite H1. simpl. rewrite H12. unfold watermark. simpl.
    by rewrite lookup_insert_eq.
  - rewrite H2. simpl. rewrite H21. unfold watermark. simpl.
    by rewrite lookup_insert_eq.
Qed.

Lemma Store_partial_alter_self st id (f : option Row.t → option Row.t) :
  f (tasks st !! id) = tasks st !! id →
  {| tasks := partial_alter f id (tasks st); tasks_id_seq := tasks_id_seq st |}
  = st.
Proof.
  intros Hf. destruct st as [m seq]. simpl in *. f_equal.
  apply map_eq. intros k. destruct (decide (k = id)) as [->|Hne].
  - by rewrite lookup_partial_alter_eq.
  - by rewrite lookup_partial_alter_ne.
Qed.

Lemma partial_alter_at (m : gmap Z Row.t) id
    (f g : option Row.t → option Row.t) :
  f (m !! id) = g (m !! id) → partial_alter f id m = partial_alter g id m.
Proof.
  intros Hfg. apply map_eq. intros k. destruct (decide (k = id)) as [->|Hne].
  - by rewrite !lookup_partial_alter_eq.
  - by rewrite !lookup_partial_alter_ne.
Qed.

(** A Get, an Update or a Delete reads and writes the row it names and
    nothing else. *)
Lemma endpoint_row_step req id st :
  target req = Some id →
  endpoint req st
  = ((row_step req id (tasks st !! id)).1,
     {| tasks := partial_alter (λ o, (row_step req id o).2) id (tasks st);
        tasks_id_seq := tasks_id_seq st |}).
Proof.
  destruct req as [now task| |task_id|now task_id upd|task_id del];
    intros [= ->]; unfold endpoint, bind.
  - rewrite get_task_eq, Store_partial_alter_self
      by (by destruct (tasks st !! id)).
    by destruct (tasks st !! id).
  - destruct (tasks st !! id) as [row|] eqn:Hrow.
    2:{ rewrite update_task_not_found, Store_partial_alter_self
          by (done || by rewrite Hrow). done. }
    destruct (decide (TaskUpdate.request_timestamp upd
                      ≤ Row.last_request_timestamp row)) as [Hts|Hts].
    + erewrite update_task_stale by done.
      rewrite Store_partial_alter_self
        by (rewrite Hrow; simpl; by rewrite bool_decide_eq_true_2).
      simpl. by rewrite bool_decide_eq_true_2.
    + erewrite update_task_fresh by (done || lia).
      simpl. rewrite bool_decide_eq_false_2 by done. simpl. f_equal. f_equal.
      apply partial_alter_at. rewrite Hrow. simpl.
      by rewrite bool_decide_eq_false_2.
  - destruct (tasks st !! id) as [row|] eqn:Hrow.
    2:{ rewrite delete_task_not_found, Store_partial_alter_self
          by (done || by rewrite Hrow). done. }
    destruct (decide (TaskDelete.request_timestamp del
                      ≤ Row.last_request_timestamp row)) as [Hts|Hts].
    + erewrite delete_task_stale by done.
      rewrite Store_partial_alter_self
        by (rewrite Hrow; simpl; by rewrite bool_decide_eq_true_2).
      simpl. by rewrite bool_decide_eq_true_2.
    + erewrite delete_task_fresh by (done || lia).
      simpl. rewrite bool_decide_eq_false_2 by done. simpl. f_equal. f_equal.
      apply partial_alter_at. rewrite Hrow. simpl.
      by rewrite bool_decide_eq_false_2.
Qed.

(** With the clock reading of each request fixed, two requests that
    name different tasks commute. *)
Lemma same_clock_commute st req1 req2 id1 id2 :
  target req1 = Some id1 →
  target req2 = Some id2 →
  id1 ≠ id2 →
  (endpoint req1 st).1 = (endpoint req1 (endpoint req2 st).2).1
  ∧ (endpoint req2 st).1 = (endpoint req2 (endpoint req1 st).2).1
  ∧ (endpoint req2 (endpoint req1 st).2).2
    = (endpoint req1 (endpoint req2 st).2).2.
Proof.
  intros H1 H2 Hne.
  rewrite !(endpoint_row_step req1 id1) by done.
  rewrite !(endpoint_row_step req2 id2) by done. simpl.
  rewrite !lookup_partial_alter_ne by done.
  split; [done|]. split; [done|]. f_equal.
  by apply partial_alter_partial_alter_ne.
Qed.

Lemma target_at_time now req : target (at_time now req) = target req.
Proof. by destruct req. Qed.

Lemma at_time_not_update now req id :
  target req = Some id → is_update req = false → at_time now req = req.
Proof. by destruct req. Qed.

(** The clock reading at which a request is served shows in
    [updated_at] and nowhere else. *)
Lemma row_step_at_time now now' req id current :
  forget_response (row_step (at_time now req) id current).1
  = forget_response (row_step (at_time now' req) id current).1
  ∧ forget_updated_at <$> (row_step (at_time now req) id current).2
    = forget_updated_at <$> (row_step (at_time now' req) id current).2.
Proof.
  destruct req as [n task| |task_id|n task_id upd|task_id del],
    current as [row|]; simpl; try done.
  by case_bool_decide.
Qed.

(** X7: Two requests that name different tasks (each a Get, an Update
    or a Delete), served in one order or the other, the first at clock
    reading [now1] and the second at [now2]: in both orders each gets
    the same response and the store ends up the same, but for the
    [updated_at] an Update writes and returns, which is the clock
    reading at which it was served.  A Get or a Delete gets exactly the
    same response, and without an Update the stores are equal. *)
Theorem distinct_tasks_commute st req1 req2 id1 id2 now1 now2 :
  target req1 = Some id1 →
  target req2 = Some id2 →
  id1 ≠ id2 →
  let first1 := endpoint (at_time now1 req1) st in
  let then2 := endpoint (at_time now2 req2) first1.2 in
  let first2 := endpoint (at_time now1 req2) st in
  let then1 := endpoint (at_time now2 req1) first2.2 in
  forget_response first1.1 = forget_response then1.1
  ∧ forget_response then2.1 = forget_response first2.1
  ∧ forget_store then2.2 = forget_store then1.2
  ∧ (is_update req1 = false → first1.1 = then1.1)
  ∧ (is_update req2 = false → then2.1 = first2.1)
  ∧ (is_update req1 = false → is_update req2 = false → then2.2 = then1.2).
Proof.
  intros H1 H2 Hne. simpl.
  split; [|split; [|split; [|split; [|split]]]].
  - rewrite !(endpoint_row_step (at_time _ req1) id1)
      by (by rewrite target_at_time).
    rewrite !(endpoint_row_step (at_time _ req2) id2)
      by (by rewrite target_at_time). simpl.
    rewrite lookup_partial_alter_ne by done.
    apply (proj1 (row_step_at_time _ _ _ _ _)).
  - rewrite !(endpoint_row_step (at_time _ req2) id2)
      by (by rewrite target_at_time).
    rewrite !(endpoint_row_step (at_time _ req1) id1)
      by (by rewrite target_at_time). simpl.
    rewrite lookup_partial_alter_ne by done.
    apply (proj1 (row_step_at_time _ _ _ _ _)).
  - rewrite !(endpoint_row_step (at_time _ req2) id2)
      by (by rewrite target_at_time).
    rewrite !(endpoint_row_step (at_time _ req1) id1)
      by (by rewrite target_at_time).
    unfold forget_store. simpl. f_equal. apply map_eq. intros k.
    rewrite !lookup_fmap.
    destruct (decide (k = id1)) as [->|Hk1];
      [|destruct (decide (k = id2)) as [->|Hk2]].
    + rewrite (lookup_partial_alter_ne _ _ id2 id1) by done.
      rewrite !lookup_partial_alter_eq.
      rewrite lookup_partial_alter_ne by done.
      apply (proj2 (row_step_at_time _ _ _ _ _)).
    + rewrite (lookup_partial_alter_ne _ _ id1 id2) by done.
      rewrite !lookup_partial_alter_eq.
      rewrite lookup_partial_alter_ne by done.
      apply (proj2 (row_step_at_time _ _ _ _ _)).
    + by rewrite !lookup_partial_alter_ne by done.
  - intros Hu1. rewrite !(at_time_not_update _ req1 id1) by done.
    apply (same_clock_commute st req1 (at_time now1 req2) id1 id2);
      [done|by rewrite target_at_time|done].
  - intros Hu2. rewrite !(at_time_not_update _ req2 id2) by done.
    symmetry.
    apply (same_clock_commute st (at_time now1 req1) req2 id1 id2);
      [by rewrite target_at_time|done|done].
  - intros Hu1 Hu2. rewrite !(at_time_not_update _ req1 id1) by done.
    rewrite !(at_time_not_update _ req2 id2) by done.
    by apply (same_clock_commute st req1 req2 id1 id2).
Qed.

End composition.

(** ** The duplicate guard and the other mutations *)

Section guard.
Implicit Types (st : Store) (id now : Z) (row : Row.t).

(** X8: The guard reads the watermark as it is now.  For a task that alone
    has its title, a Create of that title with a timestamp above the
    task's watermark is accepted; once an Update that keeps the title
    has moved the watermark to or past that timestamp, the same Create
    is a 409. *)
Theorem guard_follows_watermark st id row now now' task_update task r st' :
  Store_wf st →
  tasks st !! id = Some row →
  (∀ k other, k ≠ id → tasks st !! k = Some other →
     Row.title other ≠ TaskCreate.title task) →
  Row.title row = TaskCreate.title task →
  TaskUpdate.title task_update = None →
  update_task now id task_update st = (Return r, st') →
  Row.last_request_timestamp row < TaskCreate.request_timestamp task →
  TaskCreate.request_timestamp task
    ≤ TaskUpdate.request_timestamp task_update →
  (∃ r' st'', create_task now' task st = (Return r', st''))
  ∧ create_task now' task st' = (Raise HTTP_409_CONFLICT, st').
Proof.
  intros Hwf Hrow Hothers Htitle Hkeep
    (row0 & Hrow0 & Hts & -> & ->)%update_task_Return_inv Hnew Hold.
  rewrite Hrow in Hrow0. injection Hrow0 as <-. split.
  - rewrite create_task_fresh; [by eexists _, _|done|].
    intros (k & other & Hk & Ht & Hle).
    destruct (decide (k = id)) as [->|Hne].
    + rewrite Hrow in Hk. injection Hk as <-. lia.
    + by apply (Hothers k other).
  - apply create_task_duplicate. exists id, (updated_row now task_update row).
    simpl. rewrite lookup_insert_eq. split; [done|].
    by rewrite Hkeep.
Qed.

(** X9: An accepted Update that changes the title of the only task of that
    title frees the old title: a Create of the old title is accepted
    whatever its timestamp. *)
Theorem rename_frees_title st id row now now' task_update new_title task r st' :
  Store_wf st →
  tasks st !! id = Some row →
  (∀ k other, k ≠ id → tasks st !! k = Some other →
     Row.title other ≠ TaskCreate.title task) →
  TaskUpdate.title task_update = Some new_title →
  new_title ≠ TaskCreate.title task →
  update_task now id task_update st = (Return r, st') →
  ∃ r' st'', create_task now' task st' = (Return r', st'')
    ∧ TaskResponse.id r' ≠ id.
Proof.
  intros Hwf Hrow Hothers Hnew Hne
    (row0 & Hrow0 & Hts & -> & ->)%update_task_Return_inv.
  rewrite Hrow in Hrow0. injection Hrow0 as <-.
  pose proof (Store_wf_lookup st id row Hwf Hrow) as Hid.
  rewrite create_task_fresh.
  - eexists _, _. split; [done|]. simpl. lia.
  - apply Store_wf_insert; [done|done|lia].
  - intros (k & other & Hk & Ht & Hle). simpl in Hk.
    destruct (decide (k = id)) as [->|Hk'].
    + rewrite lookup_insert_eq in Hk. injection Hk as <-.
      simpl in Ht. rewrite Hnew in Ht. done.
    + rewrite lookup_insert_ne in Hk by done. by apply (Hothers k other).
Qed.

(** X10: A deleted task takes its watermark with it: after an accepted
    Delete of the only task of a title, a Create of that title is
    accepted whatever its timestamp, also one older than the deleted
    task's watermark, and the new task has an id of its own. *)
Theorem create_after_delete st id task_delete m st' now task :
  Store_wf st →
  (∀ k other, k ≠ id → tasks st !! k = Some other →
     Row.title other ≠ TaskCreate.title task) →
  delete_task id task_delete st = (Return m, st') →
  ∃ r st'', create_task now task st' = (Return r, st'')
    ∧ TaskResponse.id r ≠ id
    ∧ tasks st'' !! id = None.
Proof.
  intros Hwf Hothers (row & Hrow & Hts & -> & ->)%delete_task_Return_inv.
  pose proof (Store_wf_lookup st id row Hwf Hrow) as Hid.
  rewrite create_task_fresh.
  - eexists _, _. split; [done|]. simpl. split; [lia|].
    rewrite lookup_insert_ne by lia. apply lookup_delete_eq.
  - by apply Store_wf_delete.
  - intros (k & other & Hk & Ht & Hle). simpl in Hk.
    destruct (decide (k = id)) as [->|Hk'].
    + by rewrite lookup_delete_eq in Hk.
    + rewrite lookup_delete_ne in Hk by done. by apply (Hothers k other).
Qed.

(** X11: The number of tasks List returns: one more after an accepted
    Create, the same after an accepted Update, one less after an
    accepted Delete. *)
Theorem list_tasks_length st :
  (∀ now task r st' l l',
     create_task now task st = (Return r, st') →
     list_tasks st = (Return l, st) → list_tasks st' = (Return l', st') →
     length l' = S (length l))
  ∧ (∀ now id task_update r st' l l',
       update_task now id task_update st = (Return r, st') →
       list_tasks st = (Return l, st) → list_tasks st' = (Return l', st') →
       length l' = length l)
  ∧ (∀ id task_delete m st' l l',
       delete_task id task_delete st = (Return m, st') →
       list_tasks st = (Return l, st) → list_tasks st' = (Return l', st') →
       length l = S (length l')).
Proof.
  assert (Hlen : ∀ s l, list_tasks s = (Return l, s) →
                   length l = size (tasks s)).
  { intros s l. rewrite list_tasks_eq. intros [= <-].
    rewrite length_fmap, <- length_map_to_list.
    apply Permutation_length, merge_sort_Permutation. }
  split; [|split].
  - intros now task r st' l l' (Hfresh & -> & ->)%create_task_Return_inv
      Hl%Hlen Hl'%Hlen.
    rewrite Hl, Hl'. simpl. by apply map_size_insert_None.
  - intros now id upd r st' l l' (row & Hrow & _ & -> & ->)%update_task_Return_inv
      Hl%Hlen Hl'%Hlen.
    rewrite Hl, Hl'. simpl. by eapply map_size_insert_Some.
  - intros id del m st' l l' (row & Hrow & _ & -> & ->)%delete_task_Return_inv
      Hl%Hlen Hl'%Hlen.
    rewrite Hl, Hl'. simpl.
    rewrite map_size_delete_Some by (by eexists).
    assert (size (tasks st) ≠ 0%nat); [|lia].
    intros Hz%map_size_empty_iff. by rewrite Hz, lookup_empty in Hrow.
Qed.

End guard.

(** ** The UPDATE statement *)

Section query.

(** X12: The statement [update_task] writes is well-formed and says what
    [build_updates] says: its placeholders are [$1] to [$n] in this
    order, [n] being the number of arguments passed; every placeholder
    of the [SET] list is bound to the value its column was given for,
    and the one of [WHERE] to the task id. *)
Theorem build_query_binds task_id task_update :
  let q := build_query task_id task_update in
  placeholders q = seq 1 (length (q_values q))
  ∧ mapM (bind_assignment (q_values q)) (q_updates q)
    = Some (build_updates task_update)
  ∧ param (q_values q) (q_where q) = Some (Int task_id).
Proof. by destruct task_update as [[?|] [?|] [?|] [?|] ?]. Qed.

End query.

(** ** Startup, shutdown and the pool *)

Module LifespanFacts.
Import Lifespan.

(** With an open pool and the table in place, [serve] is [app] on the
    table. *)
Lemma serve_open call p st :
  db_pool p = Some {| closed := false |} →
  database p = Some st →
  serve call p
  = ((app call st).1,
     {| DATABASE_URL := DATABASE_URL p;
        db_pool := db_pool p;
        database := Some (app call st).2 |}).
Proof.
  intros Hpool Hdb. unfold serve, get_db_pool. rewrite Hpool, Hdb. simpl.
  rewrite app_eq. unfold verify_token. case_bool_decide; simpl.
  - destruct p. simpl in *. by subst.
  - by destruct (endpoint call.2 st).
Qed.

Lemma serve_all_open calls : ∀ p st,
  db_pool p = Some {| closed := false |} →
  database p = Some st →
  serve_all calls p
  = {| DATABASE_URL := DATABASE_URL p;
       db_pool := db_pool p;
       database := Some (run calls st) |}.
Proof.
  induction calls as [|call calls IH]; intros p st Hpool Hdb.
  { destruct p. simpl in *. by subst. }
  simpl. rewrite (serve_open call p st Hpool Hdb). simpl.
  by erewrite IH.
Qed.

Lemma run_app calls1 calls2 : ∀ st,
  run (calls1 ++ calls2) st = run calls2 (run calls1 st).
Proof. induction calls1 as [|call calls1 IH]; intros st; [done|apply IH]. Qed.

(** X13: The health check is a 503 exactly when there is no pool or the pool
    is closed, and then every task endpoint raises without touching
    anything: 401 for a token [verify_token] refuses, 500 otherwise. *)
Theorem unhealthy_is_500 now call p :
  (health_check now p = HTTP_503_SERVICE_UNAVAILABLE
   ↔ db_pool p = None ∨ db_pool p = Some {| closed := true |})
  ∧ (health_check now p = HTTP_503_SERVICE_UNAVAILABLE →
     serve call p
     = (Raise (if bool_decide (call.1 = EmptyString
                               ∨ (String.length call.1 < 10)%nat)
               then HTTP_401_UNAUTHORIZED
               else HTTP_500_INTERNAL_SERVER_ERROR), p)).
Proof.
  unfold health_check, serve, get_db_pool, verify_token.
  destruct (db_pool p) as [[[|]]|]; simpl.
  - split; [split; [by right|done]|]. intros _. by case_bool_decide.
  - split; [split; [done|by intros [|]]|]. done.
  - split; [split; [by left|done]|]. intros _. by case_bool_decide.
Qed.

(** X14: [init_database] without [DATABASE_URL], or with an empty one, is a
    [ValueError] and changes nothing.  Otherwise the application is
    started: the health check is healthy, a table that was there is
    kept with its rows and its sequence, a missing one is created
    empty, and every call is served from that table. *)
Theorem init_database_starts p :
  ((DATABASE_URL p = None ∨ DATABASE_URL p = Some EmptyString) →
     init_database p = (ValueError, p))
  ∧ (∀ database_url now call,
       DATABASE_URL p = Some database_url →
       database_url ≠ EmptyString →
       let p' := (init_database p).2 in
       let st := default fresh (database p) in
       (init_database p).1 = Started
       ∧ health_check now p' = healthy now
       ∧ database p' = Some st
       ∧ (serve call p').1 = (app call st).1
       ∧ database (serve call p').2 = Some (app call st).2).
Proof.
  unfold init_database. split.
  - by intros [->| ->].
  - intros url now call -> Hurl. rewrite bool_decide_eq_false_2 by done.
    simpl. split; [done|]. split; [done|]. split; [done|].
    by erewrite serve_open.
Qed.

(** X15: The tasks outlive the process: after two runs of the application,
    one after the other, the table holds what one run serving the calls
    of both would have left, starting from the table that was there or
    from an empty one. *)
Theorem lifespan_keeps_tasks calls1 calls2 p database_url :
  DATABASE_URL p = Some database_url →
  database_url ≠ EmptyString →
  database (lifespan calls2 (lifespan calls1 p))
  = Some (run (calls1 ++ calls2) (default fresh (database p)))
  ∧ database (lifespan calls2 (lifespan calls1 p))
    = database (lifespan (calls1 ++ calls2) p).
Proof.
  intros Hurl Hne.
  assert (Hone : ∀ calls q, DATABASE_URL q = Some database_url →
            lifespan calls q
            = {| DATABASE_URL := Some database_url;
                 db_pool := Some {| closed := true |};
                 database := Some (run calls (default fresh (database q))) |}).
  { intros calls q Hq. unfold lifespan, init_database. rewrite Hq.
    rewrite bool_decide_eq_false_2 by done.
    by erewrite serve_all_open. }
  rewrite (Hone calls1 p Hurl), (Hone calls2), (Hone (calls1 ++ calls2) p Hurl)
    by done.
  simpl. by rewrite run_app.
Qed.

End LifespanFacts.


(** ** The further properties on concrete requests *)

Section more_examples.

Lemma store_one_alone (title : string) k other :
  k ≠ 1 → tasks store_one !! k = Some other → Row.title other ≠ title.
Proof.
  intros Hk Hother. rewrite store_one_tasks in Hother.
  by rewrite lookup_singleton_ne in Hother.
Qed.

Lemma raise_leaves_store_witness :
  Store_wf store_one
  ∧ (app (demo_token, UpdateTask 1001 1 (TaskUpdate.mk (Some "Z") None None None 10))
       store_one).1 = Raise HTTP_409_CONFLICT
  ∧ (app (demo_token, UpdateTask 1001 1 (TaskUpdate.mk (Some "Z") None None None 10))
       store_one).2 = store_one.
Proof.
  assert (Hres : (app (demo_token,
                       UpdateTask 1001 1 (TaskUpdate.mk (Some "Z") None None None 10))
                    store_one).1 = Raise HTTP_409_CONFLICT) by (by vm_compute).
  split; [exact store_one_wf|]. split; [exact Hres|].
  exact (raise_leaves_store store_one _ _ store_one_wf Hres).
Defined.

Lemma update_task_applies_no_fields_witness :
  no_fields (TaskUpdate.mk None None None None 11)
  ∧ tasks store_one !! 1 = Some row_one
  ∧ update_task 1001 1 (TaskUpdate.mk None None None None 11) store_one
    = (Return {| TaskResponse.id := 1; TaskResponse.title := "X";
                 TaskResponse.content := "first";
                 TaskResponse.due_date := 20000;
                 TaskResponse.done := false;
                 TaskResponse.created_at := 1000;
                 TaskResponse.updated_at := 1001 |},
       {| tasks :=
            <[1 := {| Row.title := "X"; Row.content := "first";
                      Row.due_date := 20000; Row.done := false;
                      Row.created_at := 1000; Row.updated_at := 1001;
                      Row.last_request_timestamp := 11 |}]>
              (tasks store_one);
          tasks_id_seq := tasks_id_seq store_one |}).
Proof.
  assert (Hnf : no_fields (TaskUpdate.mk None None None None 11)) by done.
  split; [exact Hnf|]. split; [exact store_one_lookup|].
  apply (proj2 (update_task_applies_no_fields store_one 1001 1
                  (TaskUpdate.mk None None None None 11)) Hnf row_one
           store_one_lookup).
  simpl. lia.
Defined.

Lemma created_at_never_changes_witness :
  Store_wf store_one
  ∧ tasks store_one !! 1 = Some row_one
  ∧ tasks (run [ (demo_token, UpdateTask 1001 1
                                (TaskUpdate.mk (Some "Z") None None (Some true) 12));
                 (demo_token, CreateTask 1002 (TaskCreate.mk "X" "again" 20001 13)) ]
             store_one) !! 1
    = Some {| Row.title := "Z"; Row.content := "first"; Row.due_date := 20000;
              Row.done := true; Row.created_at := 1000; Row.updated_at := 1001;
              Row.last_request_timestamp := 12 |}
  ∧ 1000 = Row.created_at row_one.
Proof.
  split; [exact store_one_wf|]. split; [exact store_one_lookup|].
  assert (Hrow' : tasks (run
     [ (demo_token, UpdateTask 1001 1
                      (TaskUpdate.mk (Some "Z") None None (Some true) 12));
       (demo_token, CreateTask 1002 (TaskCreate.mk "X" "again" 20001 13)) ]
     store_one) !! 1
    = Some {| Row.title := "Z"; Row.content := "first"; Row.due_date := 20000;
              Row.done := true; Row.created_at := 1000; Row.updated_at := 1001;
              Row.last_request_timestamp := 12 |}) by (by vm_compute).
  split; [exact Hrow'|].
  exact (created_at_never_changes 1 _ store_one row_one _
           store_one_wf store_one_lookup Hrow').
Defined.

Lemma watermark_is_last_accepted_witness :
  Store_wf init_database
  ∧ watermark 1 (run (take 4 demo_calls) init_database) = Some 15
  ∧ last (option_list (watermark 1 init_database)
          ++ accepted_timestamps 1 (take 4 demo_calls) init_database)
    = Some 15.
Proof.
  assert (Hw : watermark 1 (run (take 4 demo_calls) init_database) = Some 15)
    by (by vm_compute).
  split; [exact init_database_wf|]. split; [exact Hw|].
  exact (watermark_is_last_accepted 1 (take 4 demo_calls) init_database 15
           init_database_wf Hw).
Defined.

Lemma replay_is_rejected_witness :
  ∃ r st',
    update_task 1001 1 (TaskUpdate.mk None None None (Some true) 11) store_one
    = (Return r, st')
    ∧ update_task 1002 1 (TaskUpdate.mk None None None (Some true) 11) st'
      = (Raise HTTP_409_CONFLICT, st').
Proof.
  destruct (replay_is_rejected store_one) as (Hreplay & _ & _).
  assert (Hts : Row.last_request_timestamp row_one < 11) by (simpl; lia).
  pose proof (update_task_fresh 1001 1
                (TaskUpdate.mk None None None (Some true) 11)
                store_one row_one store_one_lookup Hts) as Hu.
  eexists _, _. split; [exact Hu|].
  exact (Hreplay 1001 1002 1 _ _ _ Hu).
Defined.

Lemma out_of_order_pair_witness :
  tasks store_one !! 1 = Some row_one
  ∧ watermark 1
      (update_task 1002 1 (TaskUpdate.mk None None None (Some true) 12)
         (update_task 1001 1 (TaskUpdate.mk (Some "Z") None None None 11)
            store_one).2).2 = Some 12
  ∧ watermark 1
      (update_task 1001 1 (TaskUpdate.mk (Some "Z") None None None 11)
         (update_task 1002 1 (TaskUpdate.mk None None None (Some true) 12)
            store_one).2).2 = Some 12.
Proof.
  split; [exact store_one_lookup|].
  destruct (out_of_order_pair store_one 1 row_one 1001 1002
              (TaskUpdate.mk (Some "Z") None None None 11)
              (TaskUpdate.mk None None None (Some true) 12)
              store_one_lookup) as (_ & _ & H12 & H21).
  - simpl. lia.
  - simpl. lia.
  - by split.
Defined.

Lemma distinct_tasks_commute_witness :
  target (UpdateTask 0 1 (TaskUpdate.mk None None None (Some true) 30)) = Some 1
  ∧ target (DeleteTask 2 (TaskDelete.mk 31)) = Some 2
  ∧ forget_store
      (endpoint (DeleteTask 2 (TaskDelete.mk 31))
         (endpoint (UpdateTask 1002 1 (TaskUpdate.mk None None None (Some true) 30))
            store_pair).2).2
    = forget_store
        (endpoint (UpdateTask 1003 1 (TaskUpdate.mk None None None (Some true) 30))
           (endpoint (DeleteTask 2 (TaskDelete.mk 31)) store_pair).2).2
  ∧ (endpoint (DeleteTask 2 (TaskDelete.mk 31))
       (endpoint (UpdateTask 1002 1 (TaskUpdate.mk None None None (Some true) 30))
          store_pair).2).1
    = (endpoint (DeleteTask 2 (TaskDelete.mk 31)) store_pair).1.
Proof.
  assert (H1 : target (UpdateTask 0 1 (TaskUpdate.mk None None None (Some true) 30))
               = Some 1) by done.
  assert (H2 : target (DeleteTask 2 (TaskDelete.mk 31)) = Some 2) by done.
  assert (Hne : (1 : Z) ≠ 2) by done.
  split; [exact H1|]. split; [exact H2|].
  destruct (distinct_tasks_commute store_pair _ _ 1 2 1002 1003 H1 H2 Hne)
    as (_ & _ & Hst & _ & Hdel & _).
  split; [exact Hst|]. by apply Hdel.
Defined.

Lemma guard_follows_watermark_witness :
  ∃ r st',
    update_task 1001 1 (TaskUpdate.mk None None None (Some true) 12) store_one
    = (Return r, st')
    ∧ (∃ r' st'',
         create_task 1002 (TaskCreate.mk "X" "again" 20001 11) store_one
         = (Return r', st''))
    ∧ create_task 1002 (TaskCreate.mk "X" "again" 20001 11) st'
      = (Raise HTTP_409_CONFLICT, st').
Proof.
  assert (Hts : Row.last_request_timestamp row_one < 12) by (simpl; lia).
  pose proof (update_task_fresh 1001 1
                (TaskUpdate.mk None None None (Some true) 12)
                store_one row_one store_one_lookup Hts) as Hu.
  eexists _, _. split; [exact Hu|].
  apply (guard_follows_watermark store_one 1 row_one 1001 1002
           (TaskUpdate.mk None None None (Some true) 12)
           (TaskCreate.mk "X" "again" 20001 11) _ _
           store_one_wf store_one_lookup (store_one_alone _) eq_refl eq_refl Hu).
  - simpl. lia.
  - simpl. lia.
Defined.

Lemma rename_frees_title_witness :
  ∃ r st',
    update_task 1001 1 (TaskUpdate.mk (Some "Z") None None None 12) store_one
    = (Return r, st')
    ∧ ∃ r' st'',
        create_task 1002 (TaskCreate.mk "X" "again" 20001 5) st'
        = (Return r', st'')
        ∧ TaskResponse.id r' ≠ 1.
Proof.
  assert (Hts : Row.last_request_timestamp row_one < 12) by (simpl; lia).
  pose proof (update_task_fresh 1001 1
                (TaskUpdate.mk (Some "Z") None None None 12)
                store_one row_one store_one_lookup Hts) as Hu.
  eexists _, _. split; [exact Hu|].
  assert (Hne : "Z"%string ≠ "X"%string) by done.
  exact (rename_frees_title store_one 1 row_one 1001 1002
           (TaskUpdate.mk (Some "Z") None None None 12) "Z"
           (TaskCreate.mk "X" "again" 20001 5) _ _
           store_one_wf store_one_lookup (store_one_alone _) eq_refl Hne Hu).
Defined.

Lemma create_after_delete_witness :
  ∃ st',
    delete_task 1 (TaskDelete.mk 11) store_one = (Return deleted_message, st')
    ∧ ∃ r st'',
        create_task 1002 (TaskCreate.mk "X" "again" 20001 5) st'
        = (Return r, st'')
        ∧ TaskResponse.id r ≠ 1
        ∧ tasks st'' !! 1 = None.
Proof.
  assert (Hts : Row.last_request_timestamp row_one < 11) by (simpl; lia).
  pose proof (delete_task_fresh 1 (TaskDelete.mk 11) store_one row_one
                store_one_lookup Hts) as Hd.
  eexists. split; [exact Hd|].
  exact (create_after_delete store_one 1 (TaskDelete.mk 11) deleted_message _
           1002 (TaskCreate.mk "X" "again" 20001 5)
           store_one_wf (store_one_alone _) Hd).
Defined.

Lemma list_tasks_length_witness :
  ∃ r st' l l',
    create_task 1001 (TaskCreate.mk "Y" "second" 20001 20) store_one
    = (Return r, st')
    ∧ list_tasks store_one = (Return l, store_one)
    ∧ list_tasks st' = (Return l', st')
    ∧ length l' = S (length l).
Proof.
  destruct (list_tasks_length store_one) as (Hlen & _ & _).
  assert (Hnd : ¬ duplicate (TaskCreate.mk "Y" "second" 20001 20) store_one)
    by (by apply (bool_decide_unpack _)).
  pose proof (create_task_fresh 1001 (TaskCreate.mk "Y" "second" 20001 20)
                store_one store_one_wf Hnd) as Hc.
  eexists _, _, _, _.
  split; [exact Hc|]. split; [apply list_tasks_eq|].
  split; [apply list_tasks_eq|].
  exact (Hlen 1001 _ _ _ _ _ Hc (list_tasks_eq _) (list_tasks_eq _)).
Defined.

Lemma unhealthy_is_500_witness :
  Lifespan.health_check 1000 process_one = Lifespan.HTTP_503_SERVICE_UNAVAILABLE
  ∧ Lifespan.serve (demo_token, GetTask 1) process_one
    = (Raise HTTP_500_INTERNAL_SERVER_ERROR, process_one).
Proof.
  destruct (LifespanFacts.unhealthy_is_500 1000 (demo_token, GetTask 1)
              process_one) as [Hiff H500].
  assert (H503 : Lifespan.health_check 1000 process_one
                 = Lifespan.HTTP_503_SERVICE_UNAVAILABLE)
    by (apply Hiff; by left).
  split; [exact H503|]. exact (H500 H503).
Defined.

Lemma init_database_starts_witness :
  Lifespan.DATABASE_URL process_one = Some "postgresql://db/tasks"
  ∧ (Lifespan.init_database process_one).1 = Lifespan.Started
  ∧ Lifespan.health_check 1000 (Lifespan.init_database process_one).2
    = Lifespan.healthy 1000
  ∧ Lifespan.database (Lifespan.init_database process_one).2 = Some store_one.
Proof.
  split; [done|].
  destruct (LifespanFacts.init_database_starts process_one) as [_ Hstart].
  destruct (Hstart "postgresql://db/tasks" 1000 (demo_token, GetTask 1)
              eq_refl) as (H1 & H2 & H3 & _); [done|].
  by repeat split.
Defined.

Lemma lifespan_keeps_tasks_witness :
  Lifespan.DATABASE_URL process_one = Some "postgresql://db/tasks"
  ∧ Lifespan.database
      (Lifespan.lifespan (drop 3 demo_calls)
         (Lifespan.lifespan (take 3 demo_calls) process_one))
    = Lifespan.database (Lifespan.lifespan demo_calls process_one).
Proof.
  split; [done|].
  destruct (LifespanFacts.lifespan_keeps_tasks (take 3 demo_calls)
              (drop 3 demo_calls) process_one "postgresql://db/tasks" eq_refl)
    as [_ Heq]; [done|].
  exact Heq.
Defined.

End more_examples.
